(** * DocGen-Pro front end: the collection store and the payload builder

    A shallow embedding of [src/frontend/app.js]: the five editable
    collections ([state]), the add / edit / remove handlers that mutate them,
    and [generateDocument], which assembles the request payload and drives
    the submit life cycle.

    Conventions of the embedding.
    - A JavaScript string is the sequence of its UTF-16 code units
      ([jsstr], a list of [N]); [lit] turns an ASCII literal of the source
      into that form.
    - The page is a record [World]: the global [state] object, the global
      [currentMode], the [.value] of the form controls by element id, the
      generate button, the texts shown by [alert], and the download area.
      The page markup is not part of the sources; every id the script looks
      up is taken to name an element of the page, whose [.value] is a plain
      text store (what is written is what is read back).
    - An index is an integer ([Z]), as [renderList] writes it into the
      [onclick] attributes; nothing in the script checks its range.
    - [refreshLists] only rewrites the [innerHTML] of the five list
      containers, which no function of the script reads back; it is left
      out of the world, and so are the [display] styles of the input
      sections.  Module [View] puts them back on top of the world: the
      rendered lists, the sections and the full [switchMode]. *)

From stdpp Require Import gmap strings list fin_maps.
From Stdlib Require Import ZArith NArith Lia DecimalString.

Open Scope Z_scope.

(** ** JavaScript strings *)

Module Js.

Abbreviation jsstr := (list N).

(** An ASCII literal of the source as code units. *)
Definition lit (s : string) : jsstr :=
  map Ascii.N_of_ascii (String.list_ascii_of_string s).

(** ECMAScript WhiteSpace and LineTerminator code points: what
    [String.prototype.trim] strips.  All of them are single code units. *)
Definition is_ws (c : N) : bool :=
  ((9 <=? c) && (c <=? 13) || (c =? 32) || (c =? 160) || (c =? 5760)
   || (8192 <=? c) && (c <=? 8202) || (c =? 8232) || (c =? 8233)
   || (c =? 8239) || (c =? 8287) || (c =? 12288) || (c =? 65279))%N.

Fixpoint trimStart (s : jsstr) : jsstr :=
  match s with
  | [] => []
  | c :: s' => if is_ws c then trimStart s' else s
  end.

Fixpoint trimEnd (s : jsstr) : jsstr :=
  match s with
  | [] => []
  | c :: s' =>
      match trimEnd s' with
      | [] => if is_ws c then [] else [c]
      | t => c :: t
      end
  end.

(** [s.trim()] *)
Definition trim (s : jsstr) : jsstr := trimEnd (trimStart s).

(** ToBoolean on a string: the empty string is the only falsy one. *)
Definition truthy (s : jsstr) : bool :=
  match s with [] => false | _ :: _ => true end.

(** The line feed of ['\n']. *)
Definition LF : N := 10%N.

(** [s.split(sep)] for a separator of one code unit.  The empty string
    splits into one empty piece. *)
Fixpoint split (sep : N) (s : jsstr) : list jsstr :=
  match s with
  | [] => [[]]
  | c :: s' =>
      if (c =? sep)%N then [] :: split sep s'
      else match split sep s' with
           | [] => [[c]]
           | piece :: rest => (c :: piece) :: rest
           end
  end.

(** [a.join(sep)] on an array of strings, for a separator of one code
    unit. *)
Fixpoint join (sep : N) (a : list jsstr) : jsstr :=
  match a with
  | [] => []
  | [x] => x
  | x :: rest => x ++ sep :: join sep rest
  end.

(** [a[index]]: [None] stands for [undefined]. *)
Definition at_index {A} (a : list A) (index : Z) : option A :=
  if index <? 0 then None else a !! Z.to_nat index.

(** [a.splice(start, deleteCount)], the array left behind.  A negative
    [start] counts from the end, and both ends are clamped to the array. *)
Definition splice {A} (start deleteCount : Z) (a : list A) : list A :=
  let len := Z.of_nat (length a) in
  let actualStart :=
    if start <? 0 then Z.max (len + start) 0 else Z.min start len in
  let actualDeleteCount := Z.min (Z.max deleteCount 0) (len - actualStart) in
  take (Z.to_nat actualStart) a
    ++ drop (Z.to_nat (actualStart + actualDeleteCount)) a.

(** [x || ''] on a string. *)
Definition or_empty (x : jsstr) : jsstr := if truthy x then x else [].

(** Decimal rendering of a non-negative integer, as a template literal
    prints it. *)
Definition decimal (n : N) : jsstr :=
  lit (NilZero.string_of_uint (N.to_uint n)).

End Js.
Import Js.

(** ** Data model *)

(** Items of [state.experience], [state.projects] and [state.education];
    [state.skills] and [state.achievements] hold plain strings. *)
Record ExperienceEntry := {
  title : jsstr;
  company : jsstr;
  period : jsstr;
  bullets : list jsstr
}.

Record ProjectEntry := {
  name : jsstr;
  tech_stack : jsstr;
  description : jsstr
}.

Record EducationEntry := {
  degree : jsstr;
  institute : jsstr;
  year : jsstr;
  grade : jsstr
}.

(** The global [state] object. *)
Record State := {
  skills : list jsstr;
  experience : list ExperienceEntry;
  projects : list ProjectEntry;
  education : list EducationEntry;
  achievements : list jsstr
}.

(** Values stored under [payload.fields] and under [payload]. *)
Inductive FieldValue :=
| FText (s : jsstr)
| FTexts (a : list jsstr)
| FExperience (a : list ExperienceEntry)
| FProjects (a : list ProjectEntry)
| FEducation (a : list EducationEntry).

Inductive PayloadValue :=
| PText (s : jsstr)
| PBool (b : bool)
| PNull
| PFields (o : gmap string FieldValue).

Abbreviation Payload := (gmap string PayloadValue).

Record World := {
  state : State;
  currentMode : jsstr;
  (** [.value] of the form controls, by element id; a control without an
      entry holds the empty text *)
  values : gmap string jsstr;
  (** the [.generate-btn] button *)
  btn_innerHTML : jsstr;
  btn_disabled : bool;
  (** texts passed to [alert], oldest first *)
  alerts : list jsstr;
  (** request bodies handed to [fetch], oldest first *)
  requests : list Payload;
  (** [#download-pdf], [#download-docx] and [#result-area] *)
  pdf_href : jsstr;
  pdf_download : jsstr;
  docx_display : jsstr;
  result_display : jsstr
}.

(** The script's initial globals on a freshly loaded page. *)
Definition initial_state : State :=
  {| skills := []; experience := []; projects := []; education := [];
     achievements := [] |}.

Definition with_state (st : State) (w : World) : World :=
  {| state := st; currentMode := currentMode w; values := values w;
     btn_innerHTML := btn_innerHTML w; btn_disabled := btn_disabled w;
     alerts := alerts w; requests := requests w; pdf_href := pdf_href w;
     pdf_download := pdf_download w; docx_display := docx_display w;
     result_display := result_display w |}.

Definition with_values (vs : gmap string jsstr) (w : World) : World :=
  {| state := state w; currentMode := currentMode w; values := vs;
     btn_innerHTML := btn_innerHTML w; btn_disabled := btn_disabled w;
     alerts := alerts w; requests := requests w; pdf_href := pdf_href w;
     pdf_download := pdf_download w; docx_display := docx_display w;
     result_display := result_display w |}.

Definition with_button (html : jsstr) (disabled : bool) (w : World) : World :=
  {| state := state w; currentMode := currentMode w; values := values w;
     btn_innerHTML := html; btn_disabled := disabled;
     alerts := alerts w; requests := requests w; pdf_href := pdf_href w;
     pdf_download := pdf_download w; docx_display := docx_display w;
     result_display := result_display w |}.

Definition with_download (href download docx result : jsstr) (w : World)
  : World :=
  {| state := state w; currentMode := currentMode w; values := values w;
     btn_innerHTML := btn_innerHTML w; btn_disabled := btn_disabled w;
     alerts := alerts w; requests := requests w; pdf_href := href;
     pdf_download := download; docx_display := docx;
     result_display := result |}.

(** [document.getElementById(id).value] *)
Definition value (w : World) (id : string) : jsstr :=
  default [] (values w !! id).

(** [document.getElementById(id).value = v] *)
Definition set_value (id : string) (v : jsstr) (w : World) : World :=
  with_values (<[id := v]> (values w)) w.

(** [alert(text)] *)
Definition alert (text : jsstr) (w : World) : World :=
  {| state := state w; currentMode := currentMode w; values := values w;
     btn_innerHTML := btn_innerHTML w; btn_disabled := btn_disabled w;
     alerts := alerts w ++ [text]; requests := requests w;
     pdf_href := pdf_href w; pdf_download := pdf_download w;
     docx_display := docx_display w; result_display := result_display w |}.

(** [fetch(url, {body: JSON.stringify(payload)})]: the body leaves the page. *)
Definition send (payload : Payload) (w : World) : World :=
  {| state := state w; currentMode := currentMode w; values := values w;
     btn_innerHTML := btn_innerHTML w; btn_disabled := btn_disabled w;
     alerts := alerts w; requests := requests w ++ [payload];
     pdf_href := pdf_href w; pdf_download := pdf_download w;
     docx_display := docx_display w; result_display := result_display w |}.

(** Setters for the five arrays of [state]. *)
Definition with_skills (a : list jsstr) (st : State) : State :=
  {| skills := a; experience := experience st; projects := projects st;
     education := education st; achievements := achievements st |}.

Definition with_experience (a : list ExperienceEntry) (st : State) : State :=
  {| skills := skills st; experience := a; projects := projects st;
     education := education st; achievements := achievements st |}.

Definition with_projects (a : list ProjectEntry) (st : State) : State :=
  {| skills := skills st; experience := experience st; projects := a;
     education := education st; achievements := achievements st |}.

Definition with_education (a : list EducationEntry) (st : State) : State :=
  {| skills := skills st; experience := experience st; projects := projects st;
     education := a; achievements := achievements st |}.

Definition with_achievements (a : list jsstr) (st : State) : State :=
  {| skills := skills st; experience := experience st; projects := projects st;
     education := education st; achievements := a |}.

(** ** Exceptions *)

Inductive exn :=
| TypeError (message : jsstr)
| SyntaxError (message : jsstr)
| Error (message : jsstr).

Definition message (e : exn) : jsstr :=
  match e with TypeError m | SyntaxError m | Error m => m end.

(** How a handler ends: it returns, or an exception leaves it; either way
    the page is in the world given. *)
Inductive outcome :=
| Returned (w : World)
| Threw (e : exn) (w : World).

Definition world_of (o : outcome) : World :=
  match o with Returned w => w | Threw _ w => w end.

Definition then_ (o : outcome) (k : World -> outcome) : outcome :=
  match o with
  | Returned w => k w
  | Threw e w => Threw e w
  end.

Notation "o >>> k" := (then_ o k) (at level 61, left associativity).

(** Reading a property of [undefined].  The wording is the engine's; the
    script never looks at it. *)
Definition undefined_property (prop : string) : exn :=
  TypeError (lit "Cannot read properties of undefined (reading '"
             ++ lit prop ++ lit "')").

(** What a control holds after [.value = x]: [undefined] is converted to
    the text "undefined". *)
Definition to_text (x : option jsstr) : jsstr :=
  match x with Some s => s | None => lit "undefined" end.

(** ** Creation mode *)

(** The keys of [modeConfig]. *)
Inductive Mode := Manual | Guided.

Definition mode_name (mode : Mode) : jsstr :=
  match mode with Manual => lit "manual" | Guided => lit "guided" end.

(** [switchMode(mode)] for a configured mode: it records the mode and
    hides the result area. *)
Definition switchMode (mode : Mode) (w : World) : World :=
  {| state := state w; currentMode := mode_name mode; values := values w;
     btn_innerHTML := btn_innerHTML w; btn_disabled := btn_disabled w;
     alerts := alerts w; requests := requests w; pdf_href := pdf_href w;
     pdf_download := pdf_download w; docx_display := docx_display w;
     result_display := lit "none" |}.

(** ** The collection store: [editItem], [removeItem] and the add handlers *)

Definition edit_skill (index : Z) (w : World) : outcome :=
  let item := at_index (skills (state w)) index in
  let w := set_value "new-skill" (to_text item) w in
  Returned (with_state (with_skills (splice index 1 (skills (state w)))
                                    (state w)) w).

Definition edit_experience (index : Z) (w : World) : outcome :=
  match at_index (experience (state w)) index with
  | None => Threw (undefined_property "title") w
  | Some item =>
      let w := set_value "exp-title" (title item) w in
      let w := set_value "exp-company" (company item) w in
      let w := set_value "exp-period" (period item) w in
      let w := set_value "exp-bullets" (join LF (bullets item)) w in
      Returned (with_state
                  (with_experience (splice index 1 (experience (state w)))
                                   (state w)) w)
  end.

Definition edit_project (index : Z) (w : World) : outcome :=
  match at_index (projects (state w)) index with
  | None => Threw (undefined_property "name") w
  | Some item =>
      let w := set_value "proj-name" (name item) w in
      let w := set_value "proj-stack" (tech_stack item) w in
      let w := set_value "proj-desc" (description item) w in
      Returned (with_state
                  (with_projects (splice index 1 (projects (state w)))
                                 (state w)) w)
  end.

Definition edit_education (index : Z) (w : World) : outcome :=
  match at_index (education (state w)) index with
  | None => Threw (undefined_property "degree") w
  | Some item =>
      let w := set_value "edu-degree" (degree item) w in
      let w := set_value "edu-institute" (institute item) w in
      let w := set_value "edu-year" (year item) w in
      let w := set_value "edu-grade" (or_empty (grade item)) w in
      Returned (with_state
                  (with_education (splice index 1 (education (state w)))
                                  (state w)) w)
  end.

Definition edit_achievement (index : Z) (w : World) : outcome :=
  let item := at_index (achievements (state w)) index in
  let w := set_value "new-ach" (to_text item) w in
  Returned (with_state
              (with_achievements (splice index 1 (achievements (state w)))
                                 (state w)) w).

(** [if (listId === id) { ... }] *)
Definition when_list (listId id : string) (body : World -> outcome)
  (w : World) : outcome :=
  if decide (listId = id) then body w else Returned w.

(** [editItem(listId, index)]: the five [if]s one after the other; an
    exception in one of them skips the rest. *)
Definition editItem (listId : string) (index : Z) (w : World) : outcome :=
  Returned w
  >>> when_list listId "skills-list" (edit_skill index)
  >>> when_list listId "experience-list" (edit_experience index)
  >>> when_list listId "project-list" (edit_project index)
  >>> when_list listId "edu-list" (edit_education index)
  >>> when_list listId "ach-list" (edit_achievement index).

(** [removeItem(listId, index)] *)
Definition removeItem (listId : string) (index : Z) (w : World) : World :=
  let st := state w in
  let st := if decide (listId = "skills-list")
            then with_skills (splice index 1 (skills st)) st else st in
  let st := if decide (listId = "experience-list")
            then with_experience (splice index 1 (experience st)) st else st in
  let st := if decide (listId = "project-list")
            then with_projects (splice index 1 (projects st)) st else st in
  let st := if decide (listId = "edu-list")
            then with_education (splice index 1 (education st)) st else st in
  let st := if decide (listId = "ach-list")
            then with_achievements (splice index 1 (achievements st)) st
            else st in
  with_state st w.

Definition addSkill (w : World) : World :=
  let input := value w "new-skill" in
  if truthy (trim input) then
    let w := with_state (with_skills (skills (state w) ++ [trim input])
                                     (state w)) w in
    set_value "new-skill" [] w
  else w.

Definition addAch (w : World) : World :=
  let input := value w "new-ach" in
  if truthy (trim input) then
    let w := with_state
               (with_achievements (achievements (state w) ++ [trim input])
                                  (state w)) w in
    set_value "new-ach" [] w
  else w.

Definition addExp (w : World) : World :=
  let title_ := value w "exp-title" in
  let company_ := value w "exp-company" in
  let period_ := value w "exp-period" in
  let bullets_ := value w "exp-bullets" in
  if truthy (trim title_) && truthy (trim company_) then
    let entry := {| title := trim title_;
                    company := trim company_;
                    period := trim period_;
                    bullets := filter (fun x => truthy (trim x) = true)
                                      (split LF bullets_) |} in
    let w := with_state
               (with_experience (experience (state w) ++ [entry]) (state w))
               w in
    let w := set_value "exp-title" [] w in
    let w := set_value "exp-company" [] w in
    let w := set_value "exp-period" [] w in
    set_value "exp-bullets" [] w
  else alert (lit "Job Title and Company are required.") w.

Definition addProj (w : World) : World :=
  let name_ := value w "proj-name" in
  let stack := value w "proj-stack" in
  let desc := value w "proj-desc" in
  if truthy (trim name_) then
    let entry := {| name := trim name_;
                    tech_stack := trim stack;
                    description := trim desc |} in
    let w := with_state
               (with_projects (projects (state w) ++ [entry]) (state w)) w in
    let w := set_value "proj-name" [] w in
    let w := set_value "proj-stack" [] w in
    set_value "proj-desc" [] w
  else alert (lit "Project Name is required.") w.

Definition addEdu (w : World) : World :=
  let degree_ := value w "edu-degree" in
  let institute_ := value w "edu-institute" in
  let year_ := value w "edu-year" in
  let grade_ := value w "edu-grade" in
  if truthy (trim degree_) then
    let entry := {| degree := trim degree_;
                    institute := trim institute_;
                    year := trim year_;
                    grade := trim grade_ |} in
    let w := with_state
               (with_education (education (state w) ++ [entry]) (state w)) w in
    let w := set_value "edu-degree" [] w in
    let w := set_value "edu-institute" [] w in
    let w := set_value "edu-year" [] w in
    set_value "edu-grade" [] w
  else alert (lit "Degree is required.") w.

(** ** The request: [generateDocument] *)

(** [o.k1 = v1; o.k2 = v2; ...] in source order. *)
Definition assign_all {V} (o : gmap string V) (kvs : list (string * V))
  : gmap string V :=
  foldl (fun o kv => <[kv.1 := kv.2]> o) o kvs.

(** Lines 237-302: the payload as it is when it is serialised.
    [payload.fields] and [baseFields] are one object, so the assignments of
    the branch taken land in the object the payload carries. *)
Definition build_payload (w : World) : Payload :=
  let text id := FText (value w id) in
  let baseFields : gmap string FieldValue :=
    assign_all ∅ [
      ("name", text "field-name");
      ("email", text "field-email");
      ("phone", text "field-phone");
      ("location", text "field-location") ] in
  let guided := bool_decide (currentMode w = lit "guided") in
  let docType := value w "doc-type" in
  let fields :=
    if decide (docType = lit "resume") then
      assign_all baseFields [
        ("summary", text "field-summary");
        ("skills", FTexts (skills (state w)));
        ("experience_list", FExperience (experience (state w)));
        ("education", FEducation (education (state w)));
        ("projects", FProjects (projects (state w)));
        ("achievements", FTexts (achievements (state w))) ]
    else if decide (docType = lit "sop") then
      assign_all baseFields [
        ("applicant_name", default (FText []) (baseFields !! "name"));
        ("intro", text "sop-intro");
        ("academic_background", text "sop-academic");
        ("research_experience", text "sop-research");
        ("why_program", text "sop-why-program");
        ("career_goals", text "sop-goals");
        ("conclusion", text "sop-conclusion") ]
    else if decide (docType = lit "letter") then
      assign_all baseFields [
        ("sender_name", text "letter-sender-name");
        ("sender_address", text "letter-sender-addr");
        ("receiver_name", text "letter-receiver-name");
        ("receiver_address", text "letter-receiver-addr");
        ("receiver_salutation", text "letter-salutation");
        ("subject", text "letter-subject");
        ("date", text "letter-date");
        ("body", text "letter-body") ]
    else if decide (docType = lit "contract") then
      assign_all baseFields [
        ("party_a", text "cont-party-a");
        ("party_b", text "cont-party-b");
        ("date_a", text "cont-date-a");
        ("date_b", text "cont-date-b");
        ("scope", text "cont-scope");
        ("responsibilities", text "cont-resp");
        ("payment_terms", text "cont-payment");
        ("confidentiality_clause", text "cont-confidentiality");
        ("termination_clause", text "cont-termination") ]
    else if decide (docType = lit "report") then
      assign_all baseFields [
        ("title", text "rep-title");
        ("author", text "rep-author");
        ("date", text "rep-date");
        ("executive_summary", text "rep-summary");
        ("objectives", text "rep-objectives");
        ("methodology", text "rep-methodology");
        ("findings", text "rep-findings");
        ("recommendations", text "rep-recs");
        ("conclusion", text "rep-conclusion") ]
    else baseFields in
  assign_all ∅ [
    ("doc_type", PText docType);
    ("use_gemini", PBool guided);
    ("ai_context", if guided then PText (value w "ai-context") else PNull);
    ("fields", PFields fields);
    ("return_docx", PBool false) ].

(** What the awaited [fetch] settles to, as far as the script looks at it.
    Of the bodies a non-success response can carry, two kinds are covered:
    a body [response.json()] rejects, and a body that parses to an object
    whose [detail] is absent or a text.  A body that parses to something
    else ([null], an array, a [detail] that is a list or a number) is not
    covered. *)
Inductive ErrorBody :=
| NotJson (message : jsstr)       (* [response.json()] rejects *)
| Json (detail : option jsstr).   (* the body parses to an object; its
                                     [detail], when it has one, is a text *)

Inductive FetchResult :=
| Rejected (message : jsstr)      (* no response: [fetch] rejects *)
| NotOk (body : ErrorBody)        (* [!response.ok] *)
| Ok (url : jsstr).               (* [response.ok]: the blob is read and
                                     [url] is the object URL made for it *)

(** [err.detail || "Generation failed"] *)
Definition detail_or_default (detail : option jsstr) : jsstr :=
  match detail with
  | Some d => if truthy d then d else lit "Generation failed"
  | None => lit "Generation failed"
  end.

(** The busy label; 34 is the double quote. *)
Definition spinner : jsstr :=
  lit "<i class=" ++ [34%N] ++ lit "fa-solid fa-spinner fa-spin" ++ [34%N]
  ++ lit "></i> Generating...".

(** The locals of [generateDocument] that live across the [await]. *)
Record Pending := {
  originalText : jsstr;
  payload : Payload
}.

(** [payload.doc_type] inside a template literal. *)
Definition doc_type_of (p : Payload) : jsstr :=
  match p !! "doc_type" with
  | Some (PText s) => s
  | _ => lit "undefined"
  end.

(** Lines 231-309: up to the [await] of [fetch]. *)
Definition generateDocument_submit (w : World) : Pending * World :=
  let originalText := btn_innerHTML w in
  let w := with_button spinner true w in
  let payload := build_payload w in
  ({| originalText := originalText; payload := payload |}, send payload w).

(** Lines 311-331: the rest of the [try] block once [fetch] has settled. *)
Definition try_block (p : Pending) (r : FetchResult) (now : N) (w : World)
  : outcome :=
  match r with
  | Rejected m => Threw (TypeError m) w
  | NotOk (NotJson m) => Threw (SyntaxError m) w
  | NotOk (Json detail) => Threw (Error (detail_or_default detail)) w
  | Ok url =>
      Returned (with_download url
                  (doc_type_of (payload p) ++ lit "_" ++ decimal now
                   ++ lit ".pdf")
                  (lit "none") (lit "block") w)
  end.

(** Lines 311-338: [try] block, [catch] and [finally]. *)
Definition generateDocument_settle (p : Pending) (r : FetchResult) (now : N)
  (w : World) : World :=
  let w := match try_block p r now w with
           | Returned w => w
           | Threw error w => alert (lit "Error: " ++ message error) w
           end in
  with_button (originalText p) false w.

(** [generateDocument()] with nothing else happening while the request is
    in flight; [r] is what [fetch] settles to and [now] what [Date.now()]
    returns. *)
Definition generateDocument (r : FetchResult) (now : N) (w : World) : World :=
  let '(p, w) := generateDocument_submit w in
  generateDocument_settle p r now w.

(** ** The five collections, uniformly *)

Inductive Collection :=
| Skills | Experience | Projects | Education | Achievements.

Inductive Item :=
| SkillItem (s : jsstr)
| ExperienceItem (e : ExperienceEntry)
| ProjectItem (p : ProjectEntry)
| EducationItem (e : EducationEntry)
| AchievementItem (s : jsstr).

(** The content of a collection, in order. *)
Definition items (c : Collection) (st : State) : list Item :=
  match c with
  | Skills => SkillItem <$> skills st
  | Experience => ExperienceItem <$> experience st
  | Projects => ProjectItem <$> projects st
  | Education => EducationItem <$> education st
  | Achievements => AchievementItem <$> achievements st
  end.

(** The [listId] under which [renderList] wires the edit and delete
    buttons of a collection (see [refreshLists]). *)
Definition listId_of (c : Collection) : string :=
  match c with
  | Skills => "skills-list"
  | Experience => "experience-list"
  | Projects => "project-list"
  | Education => "edu-list"
  | Achievements => "ach-list"
  end.

(** The add handler of a collection. *)
Definition add (c : Collection) : World -> World :=
  match c with
  | Skills => addSkill
  | Experience => addExp
  | Projects => addProj
  | Education => addEdu
  | Achievements => addAch
  end.

(** The controls an add handler reads, in the order of the item's fields;
    the scalar ones first. *)
Definition scalar_inputs (c : Collection) : list string :=
  match c with
  | Skills => ["new-skill"]
  | Experience => ["exp-title"; "exp-company"; "exp-period"]
  | Projects => ["proj-name"; "proj-stack"; "proj-desc"]
  | Education => ["edu-degree"; "edu-institute"; "edu-year"; "edu-grade"]
  | Achievements => ["new-ach"]
  end.

Definition inputs (c : Collection) : list string :=
  match c with
  | Experience => scalar_inputs Experience ++ ["exp-bullets"]
  | _ => scalar_inputs c
  end.

(** The controls whose trimmed text the add handler tests before it
    stores anything. *)
Definition required_inputs (c : Collection) : list string :=
  match c with
  | Skills => ["new-skill"]
  | Experience => ["exp-title"; "exp-company"]
  | Projects => ["proj-name"]
  | Education => ["edu-degree"]
  | Achievements => ["new-ach"]
  end.

(** The scalar fields of an item, in the order of [scalar_inputs]. *)
Definition scalars (i : Item) : list jsstr :=
  match i with
  | SkillItem s => [s]
  | ExperienceItem e => [title e; company e; period e]
  | ProjectItem p => [name p; tech_stack p; description p]
  | EducationItem e => [degree e; institute e; year e; grade e]
  | AchievementItem s => [s]
  end.

(** The guard of the add handler: every required control holds text that
    is not empty once trimmed. *)
Definition accepts (c : Collection) (w : World) : bool :=
  forallb (fun id => truthy (trim (value w id))) (required_inputs c).

(** ** Shapes of stored text *)

Definition starts_ws (s : jsstr) : bool :=
  match s with c :: _ => is_ws c | [] => false end.

Definition ends_ws (s : jsstr) : bool :=
  match last s with Some c => is_ws c | None => false end.

(** No white space at either end. *)
Definition trimmed (s : jsstr) : bool := negb (starts_ws s) && negb (ends_ws s).

(** White space only (the empty text included). *)
Definition blank (s : jsstr) : bool := forallb is_ws s.

Definition no_LF (s : jsstr) : bool := forallb (fun c => negb (c =? LF)%N) s.

(** What the add handlers store: a required scalar is trimmed and not
    empty, another scalar is trimmed, a bullet is one line that is not
    blank. *)
Definition wf_required (s : jsstr) : bool := trimmed s && truthy s.

Definition wf_bullet (b : jsstr) : bool := no_LF b && negb (blank b).

Definition wf_item (i : Item) : bool :=
  match i with
  | SkillItem s | AchievementItem s => wf_required s
  | ExperienceItem e =>
      wf_required (title e) && wf_required (company e) && trimmed (period e)
      && forallb wf_bullet (bullets e)
  | ProjectItem p =>
      wf_required (name p) && trimmed (tech_stack p)
      && trimmed (description p)
  | EducationItem e =>
      wf_required (degree e) && trimmed (institute e) && trimmed (year e)
      && trimmed (grade e)
  end.

Definition collections : list Collection :=
  [Skills; Experience; Projects; Education; Achievements].

Definition wf_state (st : State) : bool :=
  forallb (fun c => forallb wf_item (items c st)) collections.

(** ** Sessions *)

(** What can happen to the page between two renderings. *)
Inductive Event :=
| Typed (id : string) (text : jsstr)         (* the user edits a control *)
| ClickMode (mode : Mode)                   (* a navigation button *)
| ClickAdd (c : Collection)                 (* an add button *)
| ClickEdit (listId : string) (index : Z)   (* [editItem(listId, index)] *)
| ClickRemove (listId : string) (index : Z) (* [removeItem(listId, index)] *)
| ClickGenerate (r : FetchResult) (now : N). (* the generate button *)

Definition step (w : World) (ev : Event) : World :=
  match ev with
  | Typed id text => set_value id text w
  | ClickMode mode => switchMode mode w
  | ClickAdd c => add c w
  | ClickEdit listId index => world_of (editItem listId index w)
  | ClickRemove listId index => removeItem listId index w
  | ClickGenerate r now => generateDocument r now w
  end.

Definition run (w : World) (evs : list Event) : World := foldl step w evs.

(** A freshly loaded page: empty collections, manual mode, empty controls. *)
Definition fresh : World :=
  {| state := initial_state; currentMode := lit "manual"; values := ∅;
     btn_innerHTML := lit "Generate Document"; btn_disabled := false;
     alerts := []; requests := []; pdf_href := []; pdf_download := [];
     docx_display := []; result_display := lit "none" |}.

(** ** The field schema of section 4.2 *)

Inductive DocType := Resume | Sop | Letter | Contract | Report.

Definition doc_type_name (t : DocType) : jsstr :=
  match t with
  | Resume => lit "resume"
  | Sop => lit "sop"
  | Letter => lit "letter"
  | Contract => lit "contract"
  | Report => lit "report"
  end.

(** The base identity fields. *)
Definition base_keys : gset string :=
  {[ "name"; "email"; "phone"; "location" ]}.

(** The keys the specification enumerates per document type. *)
Definition schema_keys (t : DocType) : gset string :=
  match t with
  | Resume =>
      {[ "summary"; "skills"; "experience_list"; "education"; "projects";
         "achievements" ]}
  | Sop =>
      {[ "applicant_name"; "intro"; "academic_background";
         "research_experience"; "why_program"; "career_goals";
         "conclusion" ]}
  | Letter =>
      {[ "sender_name"; "sender_address"; "receiver_name";
         "receiver_address"; "receiver_salutation"; "subject"; "date";
         "body" ]}
  | Contract =>
      {[ "party_a"; "party_b"; "date_a"; "date_b"; "scope";
         "responsibilities"; "payment_terms"; "confidentiality_clause";
         "termination_clause" ]}
  | Report =>
      {[ "title"; "author"; "date"; "executive_summary"; "objectives";
         "methodology"; "findings"; "recommendations"; "conclusion" ]}
  end.

(** The top-level keys of the payload as the specification's data model
    names them, and as the script names them. *)
Definition spec_payload_keys : gset string :=
  {[ "doc_type"; "use_ai"; "ai_context"; "fields"; "return_docx" ]}.

Definition payload_keys : gset string :=
  {[ "doc_type"; "use_gemini"; "ai_context"; "fields"; "return_docx" ]}.

(** [payload.fields] *)
Definition fields_of (p : Payload) : gmap string FieldValue :=
  match p !! "fields" with
  | Some (PFields o) => o
  | _ => ∅
  end.

(** ** What the handlers are expected to do, per collection *)

#[global] Instance Collection_eq_dec : EqDecision Collection.
Proof. solve_decision. Defined.

(** The item an add handler builds from the controls. *)
Definition entered (c : Collection) (w : World) : Item :=
  match c with
  | Skills => SkillItem (trim (value w "new-skill"))
  | Experience =>
      ExperienceItem
        {| title := trim (value w "exp-title");
           company := trim (value w "exp-company");
           period := trim (value w "exp-period");
           bullets := filter (fun x => truthy (trim x) = true)
                             (split LF (value w "exp-bullets")) |}
  | Projects =>
      ProjectItem
        {| name := trim (value w "proj-name");
           tech_stack := trim (value w "proj-stack");
           description := trim (value w "proj-desc") |}
  | Education =>
      EducationItem
        {| degree := trim (value w "edu-degree");
           institute := trim (value w "edu-institute");
           year := trim (value w "edu-year");
           grade := trim (value w "edu-grade") |}
  | Achievements => AchievementItem (trim (value w "new-ach"))
  end.

(** The text each control of [inputs] shows for an item: its scalar
    fields, and for an experience its bullets, one per line. *)
Definition texts (i : Item) : list jsstr :=
  match i with
  | ExperienceItem e => scalars i ++ [join LF (bullets e)]
  | _ => scalars i
  end.

(** The messages an add handler shows when it rejects its controls. *)
Definition rejection (c : Collection) : list jsstr :=
  match c with
  | Skills | Achievements => []
  | Experience => [lit "Job Title and Company are required."]
  | Projects => [lit "Project Name is required."]
  | Education => [lit "Degree is required."]
  end.

(** Some required control holds white space only (or nothing). *)
Definition missing_required (c : Collection) (w : World) : bool :=
  existsb (fun id => blank (value w id)) (required_inputs c).

(** The body of the request [generateDocument] sends from [w]. *)
Definition submitted (w : World) : Payload :=
  payload (generateDocument_submit w).1.

(** ** Sample sessions *)

(** One skill stored. *)
Definition one_skill : World :=
  run fresh [Typed "new-skill" (lit "Python"); ClickAdd Skills].

(** Two skills stored, and the form of an experience filled in. *)
Definition two_skills : World :=
  run fresh [Typed "new-skill" (lit "Python"); ClickAdd Skills;
             Typed "new-skill" (lit " Go "); ClickAdd Skills].

Definition engineer : list Event :=
  [Typed "exp-title" (lit "Engineer"); Typed "exp-company" (lit "Acme");
   Typed "exp-period" (lit "2020-2022");
   Typed "exp-bullets" (lit "Built X" ++ [LF] ++ lit "Shipped Y");
   ClickAdd Experience].

(** Two skills and one experience stored. *)
Definition with_engineer : World := run two_skills engineer.

(** A click on the generate button. *)
Definition is_generate (ev : Event) : bool :=
  match ev with ClickGenerate _ _ => true | _ => false end.

(** The bodies a session hands to [fetch], in order: one per click on
    the generate button, built from the page as it is at that click. *)
Fixpoint bodies (w : World) (evs : list Event) : list Payload :=
  match evs with
  | [] => []
  | ev :: evs =>
      match ev with
      | ClickGenerate _ _ => [submitted w]
      | _ => []
      end ++ bodies (step w ev) evs
  end.



(** ** The view: rendered lists, input sections and the mode switch *)

(** The required scalar fields of an item: the ones its add handler tests. *)
Definition required_scalars (i : Item) : list jsstr :=
  match i with
  | SkillItem s | AchievementItem s => [s]
  | ExperienceItem e => [title e; company e]
  | ProjectItem p => [name p]
  | EducationItem e => [degree e]
  end.

Module View.

(** The page with what the handlers draw on it.  [lists] holds the string
    last assigned to the [innerHTML] of each list container.  [display]
    holds the [style.display] of the elements the script only touches
    under an [if (el)] guard (the five input sections and the AI-context
    container): an id without an entry names no element, and the guard
    skips it.  [nav] lists the [.nav-btn] buttons with their
    [dataset.mode] and whether their class list has [active]. *)
Record Page := {
  world : World;
  lists : gmap string jsstr;
  display : gmap jsstr jsstr;
  nav : list (option jsstr * bool);
  mode_title : jsstr;
  mode_desc : jsstr
}.

Definition with_world (w : World) (p : Page) : Page :=
  {| world := w; lists := lists p; display := display p; nav := nav p;
     mode_title := mode_title p; mode_desc := mode_desc p |}.

Definition with_lists (l : gmap string jsstr) (p : Page) : Page :=
  {| world := world p; lists := l; display := display p; nav := nav p;
     mode_title := mode_title p; mode_desc := mode_desc p |}.

Definition with_display (d : gmap jsstr jsstr) (p : Page) : Page :=
  {| world := world p; lists := lists p; display := d; nav := nav p;
     mode_title := mode_title p; mode_desc := mode_desc p |}.

(** The double quote of the markup. *)
Definition dq : jsstr := [34%N].

(** The template literal of [renderList] for one item: [inner] is
    [renderer(item)]. *)
Definition row (id : string) (inner : jsstr) (index : nat) : jsstr :=
  [LF] ++ lit "        <div class=" ++ dq ++ lit "list-item" ++ dq ++ lit ">"
  ++ [LF] ++ lit "            <div>" ++ inner ++ lit "</div>"
  ++ [LF] ++ lit "            <div class=" ++ dq ++ lit "icon-btn-group" ++ dq
  ++ lit ">"
  ++ [LF] ++ lit "                <button onclick=" ++ dq ++ lit "editItem('"
  ++ lit id ++ lit "', " ++ decimal (N.of_nat index) ++ lit ")" ++ dq
  ++ lit " class=" ++ dq ++ lit "btn-icon btn-edit" ++ dq ++ lit "><i class="
  ++ dq ++ lit "fa-solid fa-pen" ++ dq ++ lit "></i></button>"
  ++ [LF] ++ lit "                <button onclick=" ++ dq
  ++ lit "removeItem('" ++ lit id ++ lit "', " ++ decimal (N.of_nat index)
  ++ lit ")" ++ dq ++ lit " class=" ++ dq ++ lit "btn-icon btn-delete" ++ dq
  ++ lit "><i class=" ++ dq ++ lit "fa-solid fa-trash" ++ dq
  ++ lit "></i></button>"
  ++ [LF] ++ lit "            </div>"
  ++ [LF] ++ lit "        </div>"
  ++ [LF] ++ lit "    ".

(** [items.map((item, index) => ...).join('')] *)
Definition markup {A} (id : string) (items : list A) (renderer : A -> jsstr)
  : jsstr :=
  mjoin (imap (fun index item => row id (renderer item) index) items).

(** [renderList(id, items, renderer)] *)
Definition renderList {A} (id : string) (items : list A)
  (renderer : A -> jsstr) (p : Page) : Page :=
  with_lists (<[id := markup id items renderer]> (lists p)) p.

(** The renderers [refreshLists] passes. *)
Definition render_text (item : jsstr) : jsstr := item.

Definition render_experience (item : ExperienceEntry) : jsstr :=
  lit "<strong>" ++ title item ++ lit "</strong> at " ++ company item.

Definition render_project (item : ProjectEntry) : jsstr :=
  lit "<strong>" ++ name item ++ lit "</strong> (" ++ tech_stack item
  ++ lit ")".

Definition render_education (item : EducationEntry) : jsstr :=
  lit "<strong>" ++ degree item ++ lit "</strong>, " ++ institute item
  ++ lit " "
  ++ (if truthy (grade item) then lit "(Grade: " ++ grade item ++ lit ")"
      else []).

(** [refreshLists()] *)
Definition refreshLists (p : Page) : Page :=
  let st := state (world p) in
  let p := renderList "skills-list" (skills st) render_text p in
  let p := renderList "ach-list" (achievements st) render_text p in
  let p := renderList "experience-list" (experience st) render_experience p in
  let p := renderList "project-list" (projects st) render_project p in
  renderList "edu-list" (education st) render_education p.

(** The [sections] array of the doc-type listener. *)
Definition sections : list jsstr :=
  [lit "inputs-resume"; lit "inputs-sop"; lit "inputs-letter";
   lit "inputs-contract"; lit "inputs-report"].

(** [if (el) el.style.display = v] *)
Definition show_if_present (id v : jsstr) (d : gmap jsstr jsstr)
  : gmap jsstr jsstr :=
  alter (fun _ => v) id d.

(** The [change] listener of [#doc-type] (lines 51-65). *)
Definition docTypeChanged (p : Page) : Page :=
  let type := value (world p) "doc-type" in
  let d := foldl (fun d id => show_if_present id (lit "none") d)
                 (display p) sections in
  let activeId := lit "inputs-" ++ type in
  with_display (show_if_present activeId (lit "block") d) p.

(** The [title] and [desc] of [modeConfig]. *)
Definition modeConfig (mode : Mode) : jsstr * jsstr :=
  match mode with
  | Manual =>
      (lit "Manual Creation",
       lit "Fill in the details yourself. Exact output.")
  | Guided =>
      (lit "AI Assisted Creation",
       lit "Provide rough notes/points for each section, and AI will rewrite and format them professionally.")
  end.

(** [switchMode(mode)] for a configured mode, with what it draws.  The
    mode and the result area are written by the [switchMode] of the
    store; the listener in between reads neither. *)
Definition switchMode (mode : Mode) (p : Page) : Page :=
  let p := with_world (switchMode mode (world p)) p in
  let p := {| world := world p; lists := lists p;
              display := show_if_present (lit "ai-context-container")
                           (match mode with
                            | Guided => lit "block"
                            | Manual => lit "none"
                            end) (display p);
              nav := (fun b => (b.1, bool_decide (b.1 = Some (mode_name mode))))
                     <$> nav p;
              mode_title := (modeConfig mode).1;
              mode_desc := (modeConfig mode).2 |} in
  docTypeChanged p.

(** The add handlers with their [refreshLists()], which they reach only
    when the guard holds. *)
Definition addSkill (p : Page) : Page :=
  let p' := with_world (addSkill (world p)) p in
  if truthy (trim (value (world p) "new-skill")) then refreshLists p' else p'.

Definition addAch (p : Page) : Page :=
  let p' := with_world (addAch (world p)) p in
  if truthy (trim (value (world p) "new-ach")) then refreshLists p' else p'.

Definition addExp (p : Page) : Page :=
  let p' := with_world (addExp (world p)) p in
  if truthy (trim (value (world p) "exp-title"))
     && truthy (trim (value (world p) "exp-company"))
  then refreshLists p' else p'.

Definition addProj (p : Page) : Page :=
  let p' := with_world (addProj (world p)) p in
  if truthy (trim (value (world p) "proj-name")) then refreshLists p' else p'.

Definition addEdu (p : Page) : Page :=
  let p' := with_world (addEdu (world p)) p in
  if truthy (trim (value (world p) "edu-degree")) then refreshLists p' else p'.

Definition add (c : Collection) : Page -> Page :=
  match c with
  | Skills => addSkill
  | Experience => addExp
  | Projects => addProj
  | Education => addEdu
  | Achievements => addAch
  end.

(** [removeItem] always reaches its [refreshLists()]. *)
Definition removeItem (listId : string) (index : Z) (p : Page) : Page :=
  refreshLists (with_world (removeItem listId index (world p)) p).

(** [editItem] reaches its [refreshLists()] unless it has thrown. *)
Definition editItem (listId : string) (index : Z) (p : Page) : Page :=
  match editItem listId index (world p) with
  | Returned w => refreshLists (with_world w p)
  | Threw _ w => with_world w p
  end.

(** One event on the page; an exception that leaves a handler is lost. *)
Definition step (p : Page) (ev : Event) : Page :=
  match ev with
  | Typed id text => with_world (set_value id text (world p)) p
  | ClickMode mode => switchMode mode p
  | ClickAdd c => add c p
  | ClickEdit listId index => editItem listId index p
  | ClickRemove listId index => removeItem listId index p
  | ClickGenerate r now => with_world (generateDocument r now (world p)) p
  end.

Definition run (p : Page) (evs : list Event) : Page := foldl step p evs.

(** The innerHTML [refreshLists] gives the container of a collection. *)
Definition rendered (c : Collection) (st : State) : jsstr :=
  match c with
  | Skills => markup "skills-list" (skills st) render_text
  | Experience => markup "experience-list" (experience st) render_experience
  | Projects => markup "project-list" (projects st) render_project
  | Education => markup "edu-list" (education st) render_education
  | Achievements => markup "ach-list" (achievements st) render_text
  end.

(** Every list container shows the collection behind it. *)
Definition in_sync (p : Page) : Prop :=
  forall c, lists p !! listId_of c = Some (rendered c (state (world p))).

(** The input sections that are shown. *)
Definition visible_sections (p : Page) : list jsstr :=
  filter (fun id => display p !! id = Some (lit "block")) sections.

(** A page as the script finds it when it is loaded, once line 68 has
    dispatched the first [change]: empty list containers, all five
    sections and the AI-context container present, two navigation
    buttons. *)
Definition fresh : Page :=
  docTypeChanged
    {| world := fresh;
       lists := list_to_map ((fun c => (listId_of c, [])) <$> collections);
       display := list_to_map
                    ((fun id => (id, [])) <$>
                     (lit "ai-context-container" :: sections));
       nav := [(Some (lit "manual"), true); (Some (lit "guided"), false)];
       mode_title := (modeConfig Manual).1;
       mode_desc := (modeConfig Manual).2 |}.

End View.

(** * Properties *)

(** ** Strings: [trim], [split] and [join] *)

Section Trim.

Local Ltac case_ws c := let E := fresh "Hws" in destruct (is_ws c) eqn:E.

Lemma blank_app (a b : jsstr) : blank (a ++ b) = blank a && blank b.
Proof. apply forallb_app. Qed.

Lemma trimStart_spec (s : jsstr) :
  exists pre, s = pre ++ trimStart s /\ blank pre = true
              /\ starts_ws (trimStart s) = false.
Proof.
  induction s as [|c s (pre & Hs & Hpre & Hhd)]; simpl.
  - by exists [].
  - case_ws c.
    + exists (c :: pre). simpl. rewrite Hws, Hpre, <- Hs. done.
    + exists []. simpl. by rewrite Hws.
Qed.

Lemma trimEnd_spec (s : jsstr) :
  exists post, s = trimEnd s ++ post /\ blank post = true
               /\ ends_ws (trimEnd s) = false.
Proof.
  induction s as [|c s (post & Hs & Hpost & Hlast)]; simpl.
  - by exists [].
  - destruct (trimEnd s) as [|x t] eqn:Ht.
    + simpl in Hs. subst post. case_ws c.
      * exists (c :: s). simpl. by rewrite Hws, Hpost.
      * exists s. unfold ends_ws. simpl. by rewrite Hws.
    + exists post. by rewrite Hs.
Qed.

Lemma trimEnd_starts (s : jsstr) :
  starts_ws s = false -> starts_ws (trimEnd s) = false.
Proof.
  destruct s as [|c s]; simpl; [done|]. intros Hc.
  destruct (trimEnd s); [rewrite Hc|]; done.
Qed.

Lemma trimStart_fixed (s : jsstr) : starts_ws s = false -> trimStart s = s.
Proof. destruct s as [|c s]; simpl; [done|]. by intros ->. Qed.

Lemma trimEnd_fixed (s : jsstr) : ends_ws s = false -> trimEnd s = s.
Proof.
  induction s as [|c s IH]; [done|]. destruct s as [|x r].
  - unfold ends_ws. simpl. by intros ->.
  - unfold ends_ws in *. rewrite last_cons_cons. intros H.
    change (trimEnd (c :: x :: r))
      with (match trimEnd (x :: r) with
            | [] => if is_ws c then [] else [c]
            | t => c :: t
            end).
    by rewrite (IH H).
Qed.

(** [trim] removes a run of white space at each end, and nothing else:
    what is left starts and ends with something that is not white space. *)
Lemma trim_spec (s : jsstr) :
  exists pre post, s = pre ++ trim s ++ post /\ blank pre = true
                   /\ blank post = true /\ trimmed (trim s) = true.
Proof.
  destruct (trimStart_spec s) as (pre & Hs & Hpre & Hhd).
  destruct (trimEnd_spec (trimStart s)) as (post & Ht & Hpost & Hlast).
  exists pre, post. unfold trim, trimmed.
  rewrite <- Ht, <- Hs, Hlast, (trimEnd_starts _ Hhd). done.
Qed.

Lemma trimmed_trim (s : jsstr) : trimmed (trim s) = true.
Proof. by destruct (trim_spec s) as (? & ? & ? & ? & ? & ?). Qed.

Lemma trim_fixed (s : jsstr) : trimmed s = true -> trim s = s.
Proof.
  unfold trimmed, trim. intros [H1 H2]%andb_true_iff.
  apply negb_true_iff in H1, H2.
  by rewrite (trimStart_fixed _ H1), (trimEnd_fixed _ H2).
Qed.

Lemma trim_idempotent (s : jsstr) : trim (trim s) = trim s.
Proof. apply trim_fixed, trimmed_trim. Qed.

Lemma trimStart_blank (s : jsstr) : blank s = true -> trimStart s = [].
Proof.
  induction s as [|c s IH]; simpl; [done|].
  intros [-> H]%andb_true_iff. auto.
Qed.

(** White space only is exactly what trims to the empty, falsy string. *)
Lemma truthy_trim (s : jsstr) : truthy (trim s) = negb (blank s).
Proof.
  destruct (blank s) eqn:Hb; simpl.
  - unfold trim. by rewrite (trimStart_blank _ Hb).
  - destruct (trimStart_spec s) as (pre & Hs & Hpre & Hhd). unfold trim.
    destruct (trimStart s) as [|c r] eqn:Ht.
    + rewrite app_nil_r in Hs. congruence.
    + simpl in *. destruct (trimEnd r); [rewrite Hhd|]; done.
Qed.

End Trim.

Section SplitJoin.

Lemma split_not_nil (s : jsstr) : split LF s <> [].
Proof.
  destruct s as [|c s]; simpl; [done|].
  destruct (c =? LF)%N; [done|]. by destruct (split LF s).
Qed.

(** Splitting loses nothing: joining the pieces gives the text back. *)
Lemma join_split (s : jsstr) : join LF (split LF s) = s.
Proof.
  induction s as [|c s IH]; simpl; [done|].
  pose proof (split_not_nil s) as Hne.
  destruct (c =? LF)%N eqn:Hc.
  - apply N.eqb_eq in Hc. subst c.
    destruct (split LF s) as [|p rest]; [done|]. simpl in *. by rewrite IH.
  - destruct (split LF s) as [|p rest]; [done|].
    destruct rest; simpl in *; by rewrite <- IH.
Qed.

Lemma split_no_LF (s : jsstr) : Forall (fun p => no_LF p = true) (split LF s).
Proof.
  induction s as [|c s IH]; simpl.
  - by constructor.
  - destruct (c =? LF)%N eqn:Hc.
    + by constructor.
    + destruct (split LF s) as [|p rest]; simpl.
      * constructor; [|done]. simpl. by rewrite Hc.
      * inversion_clear IH. constructor; [|done]. simpl. by rewrite Hc.
Qed.

Lemma split_one_line (s : jsstr) : no_LF s = true -> split LF s = [s].
Proof.
  induction s as [|c s IH]; simpl; [done|].
  intros [Hc Hs]%andb_true_iff. apply negb_true_iff in Hc.
  by rewrite Hc, (IH Hs).
Qed.

Lemma split_line_LF (x rest : jsstr) :
  no_LF x = true -> split LF (x ++ LF :: rest) = x :: split LF rest.
Proof.
  induction x as [|c x IH]; simpl; [done|].
  intros [Hc Hx]%andb_true_iff. apply negb_true_iff in Hc.
  by rewrite Hc, (IH Hx).
Qed.

(** Joining lines and splitting again gives the lines back, when there is
    at least one. *)
Lemma split_join (a : list jsstr) :
  Forall (fun p => no_LF p = true) a -> a <> [] ->
  split LF (join LF a) = a.
Proof.
  induction a as [|x a IH]; [done|]. intros Hall _.
  inversion_clear Hall as [|? ? Hx Ha]. destruct a as [|y a].
  - simpl. by apply split_one_line.
  - change (join LF (x :: y :: a)) with (x ++ LF :: join LF (y :: a)).
    rewrite (split_line_LF _ _ Hx), IH; done.
Qed.

Lemma filter_all {A} (P : A -> Prop) `{!forall x, Decision (P x)}
  (l : list A) : Forall P l -> filter P l = l.
Proof.
  induction 1 as [|x l Hx _ IH]; [done|].
  by rewrite filter_cons_True, IH.
Qed.

(** What [editItem] writes to [exp-bullets] reads back, in [addExp], as
    the bullets it came from. *)
Lemma bullets_round_trip (bs : list jsstr) :
  forallb wf_bullet bs = true ->
  filter (fun x => truthy (trim x) = true) (split LF (join LF bs)) = bs.
Proof.
  intros Hwf. destruct bs as [|b bs]; [done|].
  assert (Forall (fun x => wf_bullet x = true) (b :: bs)) as Hall.
  { apply Forall_forall. intros x Hx.
    rewrite forallb_forall in Hwf. by apply Hwf, list_elem_of_In. }
  rewrite split_join; [|eapply Forall_impl; [exact Hall|]|done].
  - apply filter_all. eapply Forall_impl; [exact Hall|].
    intros x [_ Hx]%andb_true_iff. by rewrite truthy_trim.
  - by intros x [Hx _]%andb_true_iff.
Qed.

End SplitJoin.

(** ** Arrays: indexing and [splice] *)

Section Splice.
Context {A : Type}.
Implicit Types (a : list A) (k : Z).

Lemma at_index_in_range a k :
  0 <= k < Z.of_nat (length a) -> at_index a k = a !! Z.to_nat k.
Proof. unfold at_index. intros [H _]. by rewrite (proj2 (Z.ltb_ge _ _) H). Qed.

Lemma at_index_nat a (n : nat) : at_index a (Z.of_nat n) = a !! n.
Proof.
  unfold at_index. rewrite (proj2 (Z.ltb_ge _ _) (Nat2Z.is_nonneg n)).
  by rewrite Nat2Z.id.
Qed.

Lemma at_index_beyond a k : Z.of_nat (length a) <= k -> at_index a k = None.
Proof.
  unfold at_index. intros H. destruct (k <? 0) eqn:E; [done|].
  apply lookup_ge_None. lia.
Qed.

Lemma at_index_negative a k : k < 0 -> at_index a k = None.
Proof. unfold at_index. intros H. by rewrite (proj2 (Z.ltb_lt _ _) H). Qed.

(** Inside the array [splice(k, 1)] deletes position [k]. *)
Lemma splice_in_range a k :
  0 <= k < Z.of_nat (length a) ->
  splice k 1 a = take (Z.to_nat k) a ++ drop (S (Z.to_nat k)) a.
Proof.
  intros [H0 Hlen]. unfold splice.
  rewrite (proj2 (Z.ltb_ge _ _) H0).
  replace (Z.min k (Z.of_nat (length a))) with k by lia.
  replace (k + Z.min (Z.max 1 0) (Z.of_nat (length a) - k)) with (k + 1)
    by lia.
  by replace (Z.to_nat (k + 1)) with (S (Z.to_nat k)) by lia.
Qed.

(** At or past the end it deletes nothing. *)
Lemma splice_beyond a k : Z.of_nat (length a) <= k -> splice k 1 a = a.
Proof.
  intros H. unfold splice.
  assert ((k <? 0) = false) as -> by (apply Z.ltb_ge; lia).
  replace (Z.min k (Z.of_nat (length a))) with (Z.of_nat (length a)) by lia.
  replace (Z.of_nat (length a)
           + Z.min (Z.max 1 0) (Z.of_nat (length a) - Z.of_nat (length a)))
    with (Z.of_nat (length a)) by lia.
  rewrite Nat2Z.id, take_ge, drop_all, app_nil_r; done.
Qed.

(** A negative start counts from the end, and stops at the front. *)
Lemma splice_negative a k :
  k < 0 -> a <> [] ->
  splice k 1 a = splice (Z.max (Z.of_nat (length a) + k) 0) 1 a.
Proof.
  intros Hk Ha. unfold splice.
  rewrite (proj2 (Z.ltb_lt _ _) Hk).
  assert ((Z.max (Z.of_nat (length a) + k) 0 <? 0) = false) as ->
    by (apply Z.ltb_ge; lia).
  do 2 f_equal; lia.
Qed.

Lemma length_splice_in_range a k :
  0 <= k < Z.of_nat (length a) -> S (length (splice k 1 a)) = length a.
Proof.
  intros H. rewrite (splice_in_range _ _ H).
  rewrite length_app, length_take, length_drop. lia.
Qed.

Lemma fmap_splice {B} (f : A -> B) a k n :
  f <$> splice k n a = splice k n (f <$> a).
Proof. unfold splice. by rewrite fmap_app, fmap_take, fmap_drop, length_fmap. Qed.

Lemma Forall_splice (P : A -> Prop) a k n :
  Forall P a -> Forall P (splice k n a).
Proof.
  intros H. unfold splice. apply Forall_app.
  split; [by apply Forall_take | by apply Forall_drop].
Qed.

End Splice.

(** ** The page: controls and collections *)

Lemma value_set_value (id id' : string) (v : jsstr) (w : World) :
  value (set_value id v w) id' = if decide (id = id') then v else value w id'.
Proof. unfold value, set_value. simpl. rewrite lookup_insert. by case_decide. Qed.

Lemma items_app_one (c : Collection) (st st' : State) (i : Item) :
  items c st' = items c st ++ [i] ->
  length (items c st') = S (length (items c st)) /\ last (items c st') = Some i.
Proof. intros ->. rewrite length_app, last_snoc. simpl. split; [lia|done]. Qed.

Local Ltac accepted H :=
  unfold accepts in H; simpl in H; rewrite ?andb_true_r in H;
  unfold add, addSkill, addAch, addExp, addProj, addEdu;
  rewrite H; simpl.

(** An add handler whose guard holds appends the item built from the
    controls, to its own collection only, shows nothing, and empties the
    controls it read. *)
Lemma add_accepted (c : Collection) (w : World) :
  accepts c w = true ->
  items c (state (add c w)) = items c (state w) ++ [entered c w]
  /\ (forall c', c' <> c -> items c' (state (add c w)) = items c' (state w))
  /\ (forall id, value (add c w) id
                 = if decide (id ∈ inputs c) then [] else value w id)
  /\ alerts (add c w) = alerts w.
Proof.
  intros H. repeat split.
  - destruct c; accepted H; by rewrite fmap_app.
  - intros c' Hc'. destruct c, c'; try done; by accepted H.
  - intros id. destruct c; accepted H; rewrite ?value_set_value;
      repeat case_decide; subst; try done;
      rewrite ?elem_of_cons, ?elem_of_nil in *; intuition congruence.
  - destruct c; by accepted H.
Qed.

(** An add handler whose guard fails changes nothing on the page, except
    that the three form handlers show their message. *)
Lemma add_rejected (c : Collection) (w : World) :
  accepts c w = false ->
  add c w = match rejection c with [] => w | text :: _ => alert text w end.
Proof. intros H. destruct c; by accepted H. Qed.

Lemma at_index_fmap {A B} (f : A -> B) (a : list A) (k : Z) :
  at_index (f <$> a) k = f <$> at_index a k.
Proof. unfold at_index. destruct (k <? 0); [done|]. apply list_lookup_fmap. Qed.

Lemma when_list_same (id : string) (body : World -> outcome) (w : World) :
  when_list id id body w = body w.
Proof. unfold when_list. by case_decide. Qed.

Lemma when_list_other (listId id : string) (body : World -> outcome)
  (w : World) : listId <> id -> when_list listId id body w = Returned w.
Proof. unfold when_list. by case_decide. Qed.

Local Ltac run_edit :=
  unfold editItem; simpl;
  rewrite ?when_list_same, ?when_list_other by done; simpl.

Local Ltac read_controls :=
  unfold value; simpl;
  repeat (rewrite lookup_insert_eq || rewrite lookup_insert_ne by done);
  simpl.

Local Ltac as_removeItem :=
  unfold removeItem; simpl; repeat (case_decide; try done);
  repeat split; try done; read_controls; try done.

(** [removeItem] splices the collection its [listId] names and leaves the
    others alone. *)
Lemma removeItem_items (c c' : Collection) (k : Z) (w : World) :
  items c (state (removeItem (listId_of c') k w))
  = if decide (c = c') then splice k 1 (items c (state w))
    else items c (state w).
Proof.
  destruct c, c'; unfold removeItem; simpl;
    repeat (case_decide; try done); simpl; by rewrite ?fmap_splice.
Qed.

Lemma removeItem_page (listId : string) (k : Z) (w : World) :
  values (removeItem listId k w) = values w
  /\ alerts (removeItem listId k w) = alerts w.
Proof. done. Qed.

(** [editItem] on an index that holds an item: the controls of the
    collection show the item, and the collections are as [removeItem]
    leaves them. *)
Lemma editItem_found (c : Collection) (k : Z) (w : World) (i : Item) :
  at_index (items c (state w)) k = Some i ->
  exists w1, editItem (listId_of c) k w = Returned w1
    /\ state w1 = state (removeItem (listId_of c) k w)
    /\ value w1 <$> inputs c = texts i
    /\ alerts w1 = alerts w.
Proof.
  intros Hi. destruct c; simpl in Hi; rewrite at_index_fmap in Hi;
    apply fmap_Some in Hi as (x & Hx & ->); run_edit.
  - unfold edit_skill. rewrite Hx. eexists. split; [done|]. as_removeItem.
  - unfold edit_experience. rewrite Hx. simpl. run_edit.
    eexists. split; [done|]. as_removeItem.
  - unfold edit_project. rewrite Hx. simpl. run_edit.
    eexists. split; [done|]. as_removeItem.
  - unfold edit_education. rewrite Hx. simpl. run_edit.
    eexists. split; [done|]. as_removeItem.
    unfold or_empty. by destruct (grade x).
  - unfold edit_achievement. rewrite Hx. eexists. split; [done|].
    as_removeItem.
Qed.

(** [editItem] on an index that holds nothing.  For skills and
    achievements the control receives the text of [undefined] and the
    array is spliced all the same; for the three collections of records
    reading the first field throws before anything is written. *)
Lemma editItem_missing (c : Collection) (k : Z) (w : World) :
  at_index (items c (state w)) k = None ->
  match editItem (listId_of c) k w with
  | Returned w1 =>
      (c = Skills \/ c = Achievements)
      /\ state w1 = state (removeItem (listId_of c) k w)
      /\ value w1 <$> inputs c = [lit "undefined"]
  | Threw e w1 =>
      c <> Skills /\ c <> Achievements /\ w1 = w
      /\ exists text, e = TypeError text
  end.
Proof.
  intros Hi. destruct c; simpl in Hi; rewrite at_index_fmap in Hi;
    apply fmap_None in Hi; run_edit.
  - unfold edit_skill. rewrite Hi. split; [by left|]. as_removeItem.
  - unfold edit_experience. rewrite Hi. simpl. eauto.
  - unfold edit_project. rewrite Hi. simpl. eauto.
  - unfold edit_education. rewrite Hi. simpl. eauto.
  - unfold edit_achievement. rewrite Hi. split; [by right|]. as_removeItem.
Qed.

(** A [listId] that names no collection: nothing happens. *)
Lemma unknown_listId (listId : string) (k : Z) (w : World) :
  (forall c, listId <> listId_of c) ->
  removeItem listId k w = w /\ editItem listId k w = Returned w.
Proof.
  intros H.
  pose proof (H Skills). pose proof (H Experience). pose proof (H Projects).
  pose proof (H Education). pose proof (H Achievements). simpl in *.
  split.
  - unfold removeItem. repeat (case_decide; try done). by destruct w.
  - unfold editItem. simpl.
    by repeat (rewrite when_list_other by done; simpl).
Qed.

(** ** The request life cycle leaves the form alone *)

Lemma settle_frame (p : Pending) (r : FetchResult) (now : N) (w : World) :
  state (generateDocument_settle p r now w) = state w
  /\ values (generateDocument_settle p r now w) = values w
  /\ btn_innerHTML (generateDocument_settle p r now w) = originalText p
  /\ btn_disabled (generateDocument_settle p r now w) = false.
Proof. by destruct r as [?|[?|?]|?]. Qed.

Lemma generateDocument_frame (r : FetchResult) (now : N) (w : World) :
  state (generateDocument r now w) = state w
  /\ values (generateDocument r now w) = values w
  /\ btn_innerHTML (generateDocument r now w) = btn_innerHTML w
  /\ btn_disabled (generateDocument r now w) = false.
Proof. by destruct r as [?|[?|?]|?]. Qed.

(** ** Every stored item is well formed *)

Lemma wf_state_items (st : State) :
  wf_state st = true
  <-> forall c, Forall (fun i => wf_item i = true) (items c st).
Proof.
  unfold wf_state. rewrite forallb_forall. split.
  - intros H c. apply Forall_forall. intros i Hi.
    assert (In c collections) as Hc by (destruct c; simpl; tauto).
    specialize (H c Hc). rewrite forallb_forall in H.
    by apply H, list_elem_of_In.
  - intros H c _. apply forallb_forall. intros i Hi.
    specialize (H c). rewrite Forall_forall in H.
    by apply H, list_elem_of_In.
Qed.

Lemma wf_bullets (s : jsstr) :
  forallb wf_bullet (filter (fun x => truthy (trim x) = true) (split LF s))
  = true.
Proof.
  apply forallb_forall. intros b Hb%list_elem_of_In.
  apply list_elem_of_filter in Hb as [Hb Hin].
  pose proof (split_no_LF s) as Hall. rewrite Forall_forall in Hall.
  unfold wf_bullet. rewrite (Hall _ Hin). by rewrite truthy_trim in Hb.
Qed.

(** What an add handler stores when its guard holds is well formed. *)
Lemma wf_entered (c : Collection) (w : World) :
  accepts c w = true -> wf_item (entered c w) = true.
Proof.
  unfold accepts.
  destruct c; simpl; rewrite ?andb_true_r; intros H;
    try apply andb_true_iff in H as [H1 H2];
    unfold wf_required; rewrite ?trimmed_trim, ?wf_bullets; simpl;
    rewrite ?H, ?H1, ?H2; done.
Qed.

Lemma listId_cases (listId : string) :
  (exists c, listId = listId_of c) \/ (forall c, listId <> listId_of c).
Proof.
  destruct (decide (listId = "skills-list")); [left; by exists Skills|].
  destruct (decide (listId = "experience-list"));
    [left; by exists Experience|].
  destruct (decide (listId = "project-list")); [left; by exists Projects|].
  destruct (decide (listId = "edu-list")); [left; by exists Education|].
  destruct (decide (listId = "ach-list")); [left; by exists Achievements|].
  right. by intros [].
Qed.

Lemma wf_removeItem (listId : string) (k : Z) (w : World) :
  wf_state (state w) = true ->
  wf_state (state (removeItem listId k w)) = true.
Proof.
  rewrite !wf_state_items. intros H c.
  destruct (listId_cases listId) as [[c' ->]|Hno].
  - rewrite removeItem_items. case_decide; [|done]. by apply Forall_splice.
  - by rewrite (proj1 (unknown_listId listId k w Hno)).
Qed.

(** No event takes the page out of the well-formed states. *)
Lemma wf_step (w : World) (ev : Event) :
  wf_state (state w) = true -> wf_state (state (step w ev)) = true.
Proof.
  intros Hwf. destruct ev as [id text|mode|c|listId k|listId k|r now]; simpl.
  - done.
  - done.
  - destruct (accepts c w) eqn:Hacc.
    + destruct (add_accepted c w Hacc) as (Hc & Hother & _).
      rewrite wf_state_items in *. intros c'.
      destruct (decide (c' = c)) as [->|Hne].
      * rewrite Hc. apply Forall_app. split; [done|].
        constructor; [by apply wf_entered|done].
      * by rewrite Hother.
    + rewrite (add_rejected c w Hacc). by destruct (rejection c).
  - destruct (listId_cases listId) as [[c ->]|Hno].
    + destruct (at_index (items c (state w)) k) as [i|] eqn:Hi.
      * destruct (editItem_found c k w i Hi) as (w1 & -> & Hst & _).
        simpl. rewrite Hst. by apply wf_removeItem.
      * pose proof (editItem_missing c k w Hi) as H.
        destruct (editItem (listId_of c) k w) as [w1|e w1]; simpl.
        -- destruct H as (_ & Hst & _). rewrite Hst. by apply wf_removeItem.
        -- by destruct H as (_ & _ & -> & _).
    + by rewrite (proj2 (unknown_listId listId k w Hno)).
  - by apply wf_removeItem.
  - by destruct r as [?|[?|?]|?].
Qed.

Lemma wf_run (evs : list Event) (w : World) :
  wf_state (state w) = true -> wf_state (state (run w evs)) = true.
Proof.
  revert w. induction evs as [|ev evs IH]; intros w Hwf; [done|].
  apply IH, wf_step, Hwf.
Qed.

(** Every page reached from a fresh one holds well-formed items only. *)
Lemma wf_session (evs : list Event) : wf_state (state (run fresh evs)) = true.
Proof. by apply wf_run. Qed.

(** ** Guards *)

(** The guard of an add handler fails exactly when a required control is
    blank. *)
Lemma accepts_missing (c : Collection) (w : World) :
  accepts c w = negb (missing_required c w).
Proof.
  unfold accepts, missing_required.
  destruct c; simpl; rewrite !truthy_trim, ?orb_false_r, ?andb_true_r;
    try done.
  by rewrite negb_orb.
Qed.

Lemma wf_required_fixed (s : jsstr) :
  wf_required s = true -> trim s = s /\ truthy (trim s) = true.
Proof.
  intros [Ht Hs]%andb_true_iff. by rewrite (trim_fixed _ Ht).
Qed.

(** With the texts of a well-formed item in the controls, the add handler
    of its collection accepts them and builds that very item. *)
Lemma entered_texts (c : Collection) (st : State) (w : World) (i : Item) :
  i ∈ items c st -> wf_item i = true ->
  value w <$> inputs c = texts i ->
  accepts c w = true /\ entered c w = i.
Proof.
  unfold accepts. intros Hin Hwf Hv.
  assert (forall s, wf_required s = true -> truthy (trim s) = true) as Hy
    by (intros; by apply wf_required_fixed).
  assert (forall s, wf_required s = true -> trim s = s) as Ht
    by (intros; by apply wf_required_fixed).
  destruct c; simpl in Hin; apply list_elem_of_fmap in Hin as (x & -> & _).
  - simpl in Hv, Hwf. simplify_eq. simpl. by rewrite Hy, Ht.
  - destruct x as [t co pe bs]. simpl in Hv, Hwf.
    injection Hv as <- <- <- Hb.
    apply andb_true_iff in Hwf as [[[H1 H2]%andb_true_iff H3]%andb_true_iff
                                   H4].
    simpl. rewrite (Hy _ H1), (Hy _ H2), (Ht _ H1), (Ht _ H2).
    rewrite (trim_fixed _ H3), Hb, (bullets_round_trip _ H4). done.
  - destruct x as [n ts d]. simpl in Hv, Hwf. simplify_eq.
    apply andb_true_iff in Hwf as [[H1 H2]%andb_true_iff H3].
    simpl. rewrite (Hy _ H1), (Ht _ H1).
    rewrite (trim_fixed _ H2), (trim_fixed _ H3). done.
  - destruct x as [d ins y g]. simpl in Hv, Hwf. simplify_eq.
    apply andb_true_iff in Hwf as [[[H1 H2]%andb_true_iff H3]%andb_true_iff
                                   H4].
    simpl. rewrite (Hy _ H1), (Ht _ H1).
    rewrite (trim_fixed _ H2), (trim_fixed _ H3), (trim_fixed _ H4). done.
  - simpl in Hv, Hwf. simplify_eq. simpl. by rewrite Hy, Ht.
Qed.

(** * The store and the request, operation by operation *)

(** ** Adding *)

(** C7.  An add that passes its guard appends the item built from the
    controls at the last position of its collection: the length grows by
    exactly one, every item stored before keeps its position, and the other
    four collections are as they were. *)
Theorem add_appends (c : Collection) (w : World) :
  accepts c w = true ->
  let before := items c (state w) in
  let after := items c (state (add c w)) in
  after = before ++ [entered c w]
  /\ length after = S (length before)
  /\ last after = Some (entered c w)
  /\ (forall j i, before !! j = Some i -> after !! j = Some i)
  /\ (forall c', c' <> c -> items c' (state (add c w)) = items c' (state w)).
Proof.
  intros Hacc before after.
  destruct (add_accepted c w Hacc) as (Happ & Hother & _).
  destruct (items_app_one c _ _ _ Happ) as [Hlen Hlast].
  repeat split; try done.
  intros j i Hj. subst after. rewrite Happ.
  rewrite lookup_app_l; [done|]. by eapply lookup_lt_Some.
Qed.

Lemma add_appends_witness :
  let w := set_value "new-skill" (lit "  Rust ") two_skills in
  accepts Skills w = true
  /\ skills (state (add Skills w)) = [lit "Python"; lit "Go"; lit "Rust"].
Proof.
  intros w. split; [reflexivity|].
  pose proof (add_appends Skills w eq_refl) as (H & _).
  apply (f_equal (omap (fun i => match i with SkillItem s => Some s
                                        | _ => None end))) in H.
  vm_compute in H. exact H.
Defined.

(** ** Removing *)

(** C8.  [removeItem] at an index inside the collection drops exactly the
    item at that index: the length shrinks by one, the items before it
    stay where they are, the items after it move down by one, and the
    other four collections are as they were. *)
Theorem remove_deletes (c : Collection) (w : World) (k : Z) :
  0 <= k < Z.of_nat (length (items c (state w))) ->
  let before := items c (state w) in
  let w' := removeItem (listId_of c) k w in
  let after := items c (state w') in
  S (length after) = length before
  /\ after = take (Z.to_nat k) before ++ drop (S (Z.to_nat k)) before
  /\ (forall j, (j < Z.to_nat k)%nat -> after !! j = before !! j)
  /\ (forall j, (Z.to_nat k <= j)%nat -> after !! j = before !! S j)
  /\ (forall c', c' <> c -> items c' (state w') = items c' (state w)).
Proof.
  intros Hk before w' after.
  assert (after = splice k 1 before) as Hafter.
  { subst after w'. rewrite removeItem_items. by case_decide. }
  rewrite Hafter. split; [by apply length_splice_in_range|].
  rewrite (splice_in_range before k Hk), <- delete_take_drop.
  repeat split.
  - intros j Hj. by apply list_lookup_delete_lt.
  - intros j Hj. by apply list_lookup_delete_ge.
  - intros c' Hc'. subst w'. rewrite removeItem_items. by case_decide.
Qed.

Lemma remove_deletes_witness :
  skills (state two_skills) = [lit "Python"; lit "Go"]
  /\ skills (state (removeItem "skills-list" 0 two_skills)) = [lit "Go"].
Proof.
  split; [reflexivity|].
  assert (0 <= 0 < Z.of_nat (length (items Skills (state two_skills))))
    as Hk by (vm_compute; split; [discriminate | reflexivity]).
  pose proof (remove_deletes Skills two_skills 0 Hk) as (_ & H & _).
  apply (f_equal (omap (fun i => match i with SkillItem s => Some s
                                        | _ => None end))) in H.
  vm_compute in H. exact H.
Defined.

(** ** Editing *)

(** Edit by extraction on a page whose items are well formed. *)
Lemma extract_and_reinsert (c : Collection) (w : World) (k : Z) :
  wf_state (state w) = true ->
  0 <= k < Z.of_nat (length (items c (state w))) ->
  let before := items c (state w) in
  exists i w1,
    before !! Z.to_nat k = Some i
    /\ editItem (listId_of c) k w = Returned w1
    /\ items c (state w1)
       = take (Z.to_nat k) before ++ drop (S (Z.to_nat k)) before
    /\ S (length (items c (state w1))) = length before
    /\ value w1 <$> inputs c = texts i
    /\ items c (state (add c w1)) = items c (state w1) ++ [i]
    /\ last (items c (state (add c w1))) = Some i.
Proof.
  intros Hwf Hk before.
  destruct (lookup_lt_is_Some_2 before (Z.to_nat k)) as [i Hi];
    [subst before; lia|].
  assert (at_index before k = Some i) as Hat
    by (by rewrite at_index_in_range).
  destruct (editItem_found c k w i Hat) as (w1 & Hedit & Hst & Htexts & _).
  assert (items c (state (removeItem (listId_of c) k w)) = splice k 1 before)
    as Hrem by (rewrite removeItem_items; by case_decide).
  pose proof (length_splice_in_range before k Hk) as Hlen.
  pose proof (splice_in_range before k Hk) as Hdel.
  rewrite <- Hrem in Hlen, Hdel.
  rewrite wf_state_items in Hwf. specialize (Hwf c).
  rewrite Forall_forall in Hwf.
  assert (i ∈ before) as Hin by (by eapply list_elem_of_lookup_2).
  destruct (entered_texts c (state w) w1 i Hin (Hwf i Hin) Htexts)
    as [Hacc Hent].
  destruct (add_accepted c w1 Hacc) as (Happ & _).
  destruct (items_app_one c _ _ _ Happ) as [_ Hlast].
  rewrite Hent in Happ, Hlast.
  exists i, w1. rewrite Hst in *. done.
Qed.

(** C2.  On any page reached from a fresh one, [editItem] at an index
    inside a collection takes the item out (the length shrinks by one, the
    other items keep their order) and shows its fields in the controls of
    the collection; the add that follows, with the controls as [editItem]
    left them, stores an item equal to the one taken out, at the last
    position of the collection. *)
Theorem edit_then_add (evs : list Event) (c : Collection) (k : Z) :
  let w := run fresh evs in
  let before := items c (state w) in
  0 <= k < Z.of_nat (length before) ->
  exists i w1,
    before !! Z.to_nat k = Some i
    /\ editItem (listId_of c) k w = Returned w1
    /\ items c (state w1)
       = take (Z.to_nat k) before ++ drop (S (Z.to_nat k)) before
    /\ S (length (items c (state w1))) = length before
    /\ value w1 <$> inputs c = texts i
    /\ items c (state (add c w1)) = items c (state w1) ++ [i]
    /\ last (items c (state (add c w1))) = Some i.
Proof.
  intros w before Hk. apply extract_and_reinsert; [apply wf_session|done].
Qed.

Lemma edit_then_add_witness :
  exists w1,
    editItem "skills-list" 0 two_skills = Returned w1
    /\ skills (state w1) = [lit "Go"]
    /\ value w1 "new-skill" = lit "Python"
    /\ skills (state (addSkill w1)) = [lit "Go"; lit "Python"].
Proof.
  assert (0 <= 0 < Z.of_nat (length (items Skills
            (state (run fresh [Typed "new-skill" (lit "Python");
                               ClickAdd Skills;
                               Typed "new-skill" (lit " Go ");
                               ClickAdd Skills])))))
    as Hk by (vm_compute; split; [discriminate | reflexivity]).
  destruct (edit_then_add _ Skills 0 Hk) as (i & w1 & _ & Hedit & _).
  exists w1. split; [exact Hedit|].
  vm_compute in Hedit. injection Hedit as <-. vm_compute. auto.
Defined.

(** ** What an add stores, and what it leaves in the controls *)

Lemma nonblank_filter (l : list jsstr) :
  filter (fun x => truthy (trim x) = true) l
  = filter (fun x => blank x = false) l.
Proof.
  apply list_filter_iff. intros x. rewrite truthy_trim.
  by destruct (blank x).
Qed.

(** C9.  When a required control is blank the add stores nothing.
    Otherwise the item stored last has, as scalar fields, the texts of the
    controls without the white space at their two ends: each stored scalar
    is what is left of the control's text between a blank prefix and a
    blank suffix, and neither starts nor ends with white space.  The
    bullets of an experience are the lines of the bullets control that are
    not blank, each one as typed. *)
Theorem stored_scalars_are_trimmed (c : Collection) (w : World) :
  if missing_required c w then state (add c w) = state w
  else exists i,
    last (items c (state (add c w))) = Some i
    /\ scalars i = (fun id => trim (value w id)) <$> scalar_inputs c
    /\ Forall2 (fun s id =>
                  trimmed s = true
                  /\ exists pre post, value w id = pre ++ s ++ post
                       /\ blank pre = true /\ blank post = true)
               (scalars i) (scalar_inputs c)
    /\ match i with
       | ExperienceItem e =>
           bullets e = filter (fun line => blank line = false)
                              (split LF (value w "exp-bullets"))
       | _ => True
       end.
Proof.
  pose proof (accepts_missing c w) as Hacc.
  destruct (missing_required c w); simpl in Hacc.
  - rewrite (add_rejected c w Hacc). by destruct (rejection c).
  - destruct (add_accepted c w Hacc) as (Happ & _).
    destruct (items_app_one c _ _ _ Happ) as [_ Hlast].
    exists (entered c w). split; [done|].
    assert (forall id, trimmed (trim (value w id)) = true
                       /\ exists pre post,
                            value w id = pre ++ trim (value w id) ++ post
                            /\ blank pre = true /\ blank post = true)
      as Htrim.
    { intros id. destruct (trim_spec (value w id))
        as (pre & post & ? & ? & ? & ?). eauto 8. }
    destruct c; simpl; repeat split; repeat constructor;
      try apply Htrim; apply nonblank_filter.
Qed.

(** C10.  An add that passes its guard stores the item and leaves every
    control it read empty, the other controls as they were; an add that
    fails its guard stores nothing and leaves all controls as they
    were. *)
Theorem add_resets_inputs (c : Collection) (w : World) :
  if accepts c w then
    items c (state (add c w)) = items c (state w) ++ [entered c w]
    /\ Forall (fun id => value (add c w) id = []) (inputs c)
    /\ (forall id, id ∉ inputs c -> value (add c w) id = value w id)
  else
    state (add c w) = state w /\ values (add c w) = values w.
Proof.
  destruct (accepts c w) eqn:Hacc.
  - destruct (add_accepted c w Hacc) as (Happ & _ & Hval & _).
    split; [done|]. split.
    + apply Forall_forall. intros id Hid. rewrite Hval. by case_decide.
    + intros id Hid. rewrite Hval. by case_decide.
  - rewrite (add_rejected c w Hacc). by destruct (rejection c).
Qed.

(** ** Rejected adds *)

(** C5, as the script has it.  When a required control is blank, the add
    stores nothing and leaves the controls alone; the experience, project
    and education handlers show their message, the skill and achievement
    handlers show none. *)
Theorem add_rejects (c : Collection) (w : World) :
  missing_required c w = true ->
  state (add c w) = state w
  /\ values (add c w) = values w
  /\ alerts (add c w) = alerts w ++ rejection c
  /\ (rejection c = [] <-> c = Skills \/ c = Achievements).
Proof.
  intros Hmiss. pose proof (accepts_missing c w) as Hacc.
  rewrite Hmiss in Hacc. rewrite (add_rejected c w Hacc).
  destruct c; simpl; rewrite ?app_nil_r; repeat split; try done;
    intuition discriminate.
Qed.

Lemma add_rejects_witness :
  missing_required Experience two_skills = true
  /\ alerts (add Experience two_skills)
     = [lit "Job Title and Company are required."]
  /\ state (add Experience two_skills) = state two_skills.
Proof.
  split; [reflexivity|].
  destruct (add_rejects Experience two_skills eq_refl) as (Hst & _ & Hal & _).
  split; [exact Hal | exact Hst].
Defined.

(** C5 as stated fails: with the skill control blank, [addSkill] returns
    without a message. *)
Lemma add_skill_blank_is_silent :
  missing_required Skills fresh = true
  /\ add Skills fresh = fresh
  /\ ~ exists text, alerts (add Skills fresh) = alerts fresh ++ [text].
Proof.
  split; [reflexivity|]. split; [reflexivity|].
  intros [text H]. vm_compute in H. discriminate H.
Qed.

(** ** Indices outside the collection *)

Lemma removeItem_beyond (c : Collection) (w : World) (k : Z) :
  Z.of_nat (length (items c (state w))) <= k ->
  state (removeItem (listId_of c) k w) = state w.
Proof.
  intros Hk.
  destruct c; simpl in Hk; rewrite length_fmap in Hk;
    unfold removeItem; simpl; repeat (case_decide; try done);
    rewrite (splice_beyond _ _ Hk); by destruct (state w).
Qed.

(** Below zero [removeItem] counts from the end of the collection, and
    from its front once the count runs past it. *)
Lemma removeItem_negative (c : Collection) (w : World) (k : Z) :
  k < 0 -> items c (state w) <> [] ->
  let before := items c (state w) in
  items c (state (removeItem (listId_of c) k w))
  = splice (Z.max (Z.of_nat (length before) + k) 0) 1 before.
Proof.
  intros Hk Hne before. rewrite removeItem_items. case_decide; [|done].
  by apply splice_negative.
Qed.

(** C6, as the script has it.  At an index at or past the end of the
    collection, [removeItem] and [editItem] leave all five collections as
    they were. *)
Theorem past_the_end_keeps_collections (c : Collection) (w : World) (k : Z) :
  Z.of_nat (length (items c (state w))) <= k ->
  state (removeItem (listId_of c) k w) = state w
  /\ state (world_of (editItem (listId_of c) k w)) = state w.
Proof.
  intros Hk. split; [by apply removeItem_beyond|].
  pose proof (editItem_missing c k w (at_index_beyond _ _ Hk)) as H.
  destruct (editItem (listId_of c) k w) as [w1|e w1]; simpl.
  - destruct H as (_ & -> & _). by apply removeItem_beyond.
  - by destruct H as (_ & _ & -> & _).
Qed.

Lemma past_the_end_keeps_collections_witness :
  skills (state (removeItem "skills-list" 2 two_skills))
  = [lit "Python"; lit "Go"]
  /\ skills (state (world_of (editItem "skills-list" 2 two_skills)))
     = [lit "Python"; lit "Go"].
Proof.
  assert (Z.of_nat (length (items Skills (state two_skills))) <= 2) as Hk
    by (vm_compute; discriminate).
  destruct (past_the_end_keeps_collections Skills two_skills 2 Hk)
    as [Hr He].
  change (removeItem (listId_of Skills)) with (removeItem "skills-list") in Hr.
  change (editItem (listId_of Skills)) with (editItem "skills-list") in He.
  rewrite Hr, He. split; reflexivity.
Defined.

(** C6 as stated fails: [splice] counts a negative index from the end, so
    [removeItem] and [editItem] at -1 take the last skill out. *)
Lemma negative_index_removes_last :
  ~ (0 <= -1 < Z.of_nat (length (items Skills (state two_skills))))
  /\ skills (state two_skills) = [lit "Python"; lit "Go"]
  /\ skills (state (removeItem "skills-list" (-1) two_skills))
     = [lit "Python"]
  /\ skills (state (world_of (editItem "skills-list" (-1) two_skills)))
     = [lit "Python"].
Proof. split; [lia|]. repeat split; reflexivity. Qed.

(** ** The payload *)

Lemma value_with_button (html : jsstr) (disabled : bool) (w : World)
  (id : string) : value (with_button html disabled w) id = value w id.
Proof. done. Qed.

(** The body handed to [fetch] is the payload built from the page. *)
Lemma submitted_sent (r : FetchResult) (now : N) (w : World) :
  requests (generateDocument r now w) = requests w ++ [submitted w].
Proof. by destruct r as [?|[?|?]|?]. Qed.

Local Ltac pick_branch H :=
  unfold submitted, generateDocument_submit, build_payload, fields_of;
  simpl; rewrite !value_with_button, H; simpl;
  repeat (case_decide; [try discriminate|]; try done).

(** C1.  For each of the five document types, [fields] of the payload has
    exactly the keys the schema lists for the type together with the four
    base identity keys; for a statement of purpose [applicant_name] holds
    the same text as [name]. *)
Theorem fields_match_schema (t : DocType) (w : World) :
  value w "doc-type" = doc_type_name t ->
  submitted w !! "fields" = Some (PFields (fields_of (submitted w)))
  /\ dom (fields_of (submitted w)) = schema_keys t ∪ base_keys
  /\ match t with
     | Sop =>
         fields_of (submitted w) !! "applicant_name"
         = Some (FText (value w "field-name"))
         /\ fields_of (submitted w) !! "name"
            = Some (FText (value w "field-name"))
     | _ => True
     end.
Proof.
  intros H. split; [done|].
  destruct t; simpl in H; pick_branch H; split; try done;
    unfold assign_all; simpl; rewrite !dom_insert_L, dom_empty_L;
    unfold base_keys; set_solver.
Qed.

Lemma fields_match_schema_witness :
  let w := set_value "doc-type" (lit "letter") with_engineer in
  dom (fields_of (submitted w))
  = {[ "sender_name"; "sender_address"; "receiver_name"; "receiver_address";
       "receiver_salutation"; "subject"; "date"; "body";
       "name"; "email"; "phone"; "location" ]}.
Proof.
  intros w.
  destruct (fields_match_schema Letter w eq_refl) as (_ & H & _).
  rewrite H. vm_compute. reflexivity.
Defined.

(** C4, as the script has it.  The payload has exactly the top-level keys
    [doc_type], [use_gemini], [ai_context], [fields] and [return_docx].
    [use_gemini] tells whether the current mode is the guided one; when it
    is false [ai_context] is [null], and when it is true [ai_context] is
    the text of the AI-context control, whatever it is. *)
Theorem payload_shape (w : World) :
  dom (submitted w) = payload_keys
  /\ submitted w !! "doc_type" = Some (PText (value w "doc-type"))
  /\ submitted w !! "return_docx" = Some (PBool false)
  /\ exists guided : bool,
       guided = bool_decide (currentMode w = lit "guided")
       /\ submitted w !! "use_gemini" = Some (PBool guided)
       /\ submitted w !! "ai_context"
          = Some (if guided then PText (value w "ai-context") else PNull).
Proof.
  unfold submitted, generateDocument_submit, build_payload, assign_all.
  simpl. rewrite !dom_insert_L, dom_empty_L.
  split; [unfold payload_keys; set_solver|].
  repeat split. eexists. repeat split.
Qed.

(** C4 as stated fails: the flag travels under the key [use_gemini]; the
    payload has no key [use_ai]. *)
Lemma payload_has_no_use_ai :
  submitted fresh !! "use_ai" = None
  /\ dom (submitted fresh) <> spec_payload_keys.
Proof.
  split; [reflexivity|]. intros H.
  assert ("use_ai" ∈ dom (submitted fresh)) as Hin
    by (rewrite H; unfold spec_payload_keys; set_solver).
  apply elem_of_dom in Hin as [v Hv]. vm_compute in Hv. discriminate Hv.
Qed.

(** In guided mode an empty AI-context control gives the empty text, not
    [null]; in manual mode the control is not read. *)
Example guided_empty_context :
  submitted (switchMode Guided fresh) !! "use_gemini" = Some (PBool true)
  /\ submitted (switchMode Guided fresh) !! "ai_context" = Some (PText [])
  /\ submitted (set_value "ai-context" (lit "notes") fresh) !! "ai_context"
     = Some PNull.
Proof. repeat split; reflexivity. Qed.

(** ** The outcome of a request *)

(** The error thrown for a failure response carries the response's detail,
    or the fallback text when there is none or it is empty. *)
Lemma failure_message (p : Pending) (detail : option jsstr) (now : N)
  (w : World) :
  try_block p (NotOk (Json detail)) now w
  = Threw (Error (detail_or_default detail)) w
  /\ (forall d, detail = Some d -> truthy d = true ->
                detail_or_default detail = d)
  /\ (detail = None -> detail_or_default detail = lit "Generation failed").
Proof.
  repeat split.
  - intros d -> Hd. simpl. by rewrite Hd.
  - by intros ->.
Qed.

(** C3, as the script has it.  A failure response whose body is an object
    with a detail text leaves the five collections and the controls as
    they were before the submission and shows one alert, "Error: " followed
    by exactly that text; when the object has no detail, or an empty one,
    the alert shows the fallback "Generation failed"; when the body does
    not parse there is no fallback, the alert shows the message of the
    parse error.  Whatever the request ends in, the button has its original
    label back and is enabled. *)
Theorem failed_request (w : World) (now : N) (detail text : jsstr)
  (r : FetchResult) :
  truthy detail = true ->
  let failed := generateDocument (NotOk (Json (Some detail))) now w in
  state failed = state w
  /\ values failed = values w
  /\ alerts failed = alerts w ++ [lit "Error: " ++ detail]
  /\ alerts (generateDocument (NotOk (Json None)) now w)
     = alerts w ++ [lit "Error: Generation failed"]
  /\ alerts (generateDocument (NotOk (Json (Some []))) now w)
     = alerts w ++ [lit "Error: Generation failed"]
  /\ alerts (generateDocument (NotOk (NotJson text)) now w)
     = alerts w ++ [lit "Error: " ++ text]
  /\ state (generateDocument r now w) = state w
  /\ values (generateDocument r now w) = values w
  /\ btn_innerHTML (generateDocument r now w) = btn_innerHTML w
  /\ btn_disabled (generateDocument r now w) = false.
Proof.
  intros Hd failed.
  destruct (generateDocument_frame r now w) as (? & ? & ? & ?).
  repeat split; try done.
  subst failed. unfold generateDocument, generateDocument_settle. simpl.
  by rewrite Hd.
Qed.

Lemma failed_request_witness :
  let failed :=
    generateDocument (NotOk (Json (Some (lit "Generation failed")))) 0
                     with_engineer in
  state failed = state with_engineer
  /\ values failed = values with_engineer
  /\ alerts failed = [lit "Error: Generation failed"]
  /\ btn_innerHTML failed = btn_innerHTML with_engineer
  /\ btn_disabled failed = false.
Proof.
  intros failed.
  destruct (failed_request with_engineer 0 (lit "Generation failed") []
              (NotOk (Json (Some (lit "Generation failed")))) eq_refl)
    as (H1 & H2 & H3 & _ & _ & _ & _ & _ & H4 & H5).
  repeat split; assumption.
Defined.

(** C3 as stated fails: when the body of the failure response does not
    parse (an HTML error page, say), no detail is provided, and the alert
    shows the parse error instead of the generic fallback. *)
Lemma unparsable_body_has_no_fallback :
  let text := lit "Unexpected token < in JSON at position 0" in
  let failed := generateDocument (NotOk (NotJson text)) 0 with_engineer in
  alerts failed = [lit "Error: Unexpected token < in JSON at position 0"]
  /\ alerts failed <> alerts with_engineer ++ [lit "Error: Generation failed"]
  /\ alerts failed <> alerts with_engineer ++ [lit "Generation failed"].
Proof.
  split; [vm_compute; reflexivity|].
  split; intros H; vm_compute in H; discriminate H.
Qed.

(** ** Worked sessions *)

Example trim_example : trim (lit "  Job title ") = lit "Job title".
Proof. reflexivity. Qed.

Example trim_line_breaks : trim ([LF; 9%N] ++ lit "x" ++ [13%N; LF]) = lit "x".
Proof. reflexivity. Qed.

Example split_example :
  split LF (lit "Built X" ++ [LF; LF] ++ lit "  Shipped Y ")
  = [lit "Built X"; []; lit "  Shipped Y "].
Proof. reflexivity. Qed.

Example splice_examples :
  splice 1 1 [1; 2; 3] = [1; 3]
  /\ splice 3 1 [1; 2; 3] = [1; 2; 3]
  /\ splice (-1) 1 [1; 2; 3] = [1; 2]
  /\ splice (-7) 1 [1; 2; 3] = [2; 3].
Proof. repeat split; reflexivity. Qed.

(** Skills "Python" then "Go", then the first one removed. *)
Example two_skills_then_remove :
  skills (state two_skills) = [lit "Python"; lit "Go"]
  /\ skills (state (run two_skills [ClickRemove "skills-list" 0]))
     = [lit "Go"].
Proof. split; reflexivity. Qed.

(** An experience is stored, taken back into the form, its period changed,
    and stored again. *)
Example edit_period :
  experience (state (run fresh engineer))
  = [ {| title := lit "Engineer"; company := lit "Acme";
         period := lit "2020-2022";
         bullets := [lit "Built X"; lit "Shipped Y"] |} ]
  /\ experience
       (state (run fresh (engineer ++
                          [ClickEdit "experience-list" 0;
                           Typed "exp-period" (lit "2020-2023");
                           ClickAdd Experience])))
     = [ {| title := lit "Engineer"; company := lit "Acme";
            period := lit "2020-2023";
            bullets := [lit "Built X"; lit "Shipped Y"] |} ].
Proof. split; reflexivity. Qed.

(** A bullet keeps the white space around it; blank lines go. *)
Example bullets_as_typed :
  let w := set_value "exp-bullets"
             (lit "  Built X " ++ [LF] ++ lit "   " ++ [LF] ++ lit "Shipped Y")
             (set_value "exp-company" (lit "Acme")
                (set_value "exp-title" (lit " Engineer") fresh)) in
  experience (state (addExp w))
  = [ {| title := lit "Engineer"; company := lit "Acme"; period := [];
         bullets := [lit "  Built X "; lit "Shipped Y"] |} ].
Proof. reflexivity. Qed.

(** Editing a skill past the end writes the text of [undefined] into the
    skill control; editing an experience past the end throws. *)
Example edit_past_the_end :
  value (world_of (editItem "skills-list" 2 two_skills)) "new-skill"
  = lit "undefined"
  /\ editItem "experience-list" 1 with_engineer
     = Threw (undefined_property "title") with_engineer.
Proof. split; reflexivity. Qed.

(** A successful request shows the result area with the PDF link. *)
Example successful_request :
  let w := generateDocument (Ok (lit "blob:1")) 1700000000000
             (set_value "doc-type" (lit "sop") fresh) in
  pdf_href w = lit "blob:1"
  /\ pdf_download w = lit "sop_1700000000000.pdf"
  /\ docx_display w = lit "none"
  /\ result_display w = lit "block"
  /\ alerts w = []
  /\ btn_disabled w = false.
Proof. repeat split; reflexivity. Qed.

(** * Further properties of the store *)

Lemma splice_last {A} (a : list A) (x : A) :
  splice (Z.of_nat (length a)) 1 (a ++ [x]) = a.
Proof.
  rewrite splice_in_range by (rewrite length_app; simpl; lia).
  rewrite Nat2Z.id, take_app_length.
  rewrite drop_ge by (rewrite length_app; simpl; lia).
  apply app_nil_r.
Qed.

Lemma add_then_remove_state (c : Collection) (w : World) :
  accepts c w = true ->
  state (removeItem (listId_of c) (Z.of_nat (length (items c (state w))))
                    (add c w))
  = state w.
Proof.
  intros H.
  destruct c; simpl; rewrite length_fmap; accepted H;
    unfold removeItem; simpl; repeat (case_decide; try done);
    rewrite splice_last; by destruct (state w).
Qed.

(** X1.  On every page reached from a fresh one, every stored item has
    scalar fields without white space at their ends, required fields that
    are not empty, and, for an experience, bullets that are single lines
    and not blank. *)
Theorem stored_items_well_formed (evs : list Event) (c : Collection)
  (k : nat) (i : Item) :
  items c (state (run fresh evs)) !! k = Some i ->
  Forall (fun s => trimmed s = true) (scalars i)
  /\ Forall (fun s => truthy s = true) (required_scalars i)
  /\ match i with
     | ExperienceItem e =>
         Forall (fun b => no_LF b = true /\ blank b = false) (bullets e)
     | _ => True
     end.
Proof.
  intros Hk. pose proof (wf_session evs) as Hwf.
  rewrite wf_state_items in Hwf. specialize (Hwf c).
  rewrite Forall_forall in Hwf.
  specialize (Hwf i (list_elem_of_lookup_2 _ _ _ Hk)).
  assert (forall s, wf_required s = true
                    -> trimmed s = true /\ truthy s = true) as Hreq
    by (intros s [? ?]%andb_true_iff; done).
  destruct i as [s|e|p|e|s]; cbn [wf_item] in Hwf;
    cbn [scalars required_scalars].
  - apply Hreq in Hwf as [? ?]. by repeat constructor.
  - apply andb_true_iff in Hwf
      as [[[[? ?]%Hreq [? ?]%Hreq]%andb_true_iff ?]%andb_true_iff Hb].
    repeat split; repeat constructor; try done.
    apply Forall_forall. intros b Hin%list_elem_of_In.
    rewrite forallb_forall in Hb. specialize (Hb b Hin).
    by apply andb_true_iff in Hb as [? ?%negb_true_iff].
  - apply andb_true_iff in Hwf as [[[? ?]%Hreq ?]%andb_true_iff ?].
    by repeat constructor.
  - apply andb_true_iff in Hwf
      as [[[[? ?]%Hreq ?]%andb_true_iff ?]%andb_true_iff ?].
    by repeat constructor.
  - apply Hreq in Hwf as [? ?]. by repeat constructor.
Qed.

Lemma stored_items_well_formed_witness :
  Forall (fun s => trimmed s = true)
         [lit "Engineer"; lit "Acme"; lit "2020-2022"]
  /\ Forall (fun s => truthy s = true) [lit "Engineer"; lit "Acme"]
  /\ Forall (fun b => no_LF b = true /\ blank b = false)
            [lit "Built X"; lit "Shipped Y"].
Proof.
  exact (stored_items_well_formed engineer Experience 0
           (ExperienceItem
              {| title := lit "Engineer"; company := lit "Acme";
                 period := lit "2020-2022";
                 bullets := [lit "Built X"; lit "Shipped Y"] |})
           eq_refl).
Defined.

(** X2.  An add that stores an item empties the controls it tests, so the
    same add clicked again is rejected: it stores nothing more and, for the
    three form handlers, shows the rejection message. *)
Theorem add_twice_stores_once (c : Collection) (w : World) :
  accepts c w = true ->
  accepts c (add c w) = false
  /\ state (add c (add c w)) = state (add c w)
  /\ alerts (add c (add c w)) = alerts w ++ rejection c.
Proof.
  intros H. destruct (add_accepted c w H) as (_ & _ & Hval & Hal).
  assert (accepts c (add c w) = false) as Hrej.
  { unfold accepts.
    destruct c; simpl; rewrite !Hval; repeat (case_decide; try done);
      exfalso;
      match goal with H : _ ∉ _ |- _ => apply H; cbn; repeat constructor end. }
  split; [done|]. rewrite (add_rejected _ _ Hrej).
  destruct c; simpl in Hal |- *; rewrite ?Hal, ?app_nil_r; done.
Qed.

Lemma add_twice_stores_once_witness :
  let w := set_value "new-skill" (lit "Rust") two_skills in
  skills (state (add Skills w)) = [lit "Python"; lit "Go"; lit "Rust"]
  /\ state (add Skills (add Skills w)) = state (add Skills w).
Proof.
  intros w. split; [reflexivity|].
  exact (proj1 (proj2 (add_twice_stores_once Skills w eq_refl))).
Defined.

(** X3.  Removing the last index right after an add that stored an item
    gives back the five collections as they were before the add; the
    controls stay empty. *)
Theorem add_then_remove_last (c : Collection) (w : World) :
  accepts c w = true ->
  let last_index := Z.of_nat (length (items c (state w))) in
  let w' := removeItem (listId_of c) last_index (add c w) in
  state w' = state w
  /\ Forall (fun id => value w' id = []) (inputs c).
Proof.
  intros H last_index w'. split; [by apply add_then_remove_state|].
  destruct (add_accepted c w H) as (_ & _ & Hval & _).
  apply Forall_forall. intros id Hid.
  change (value w' id) with (value (add c w) id).
  rewrite Hval. by case_decide.
Qed.

Lemma add_then_remove_last_witness :
  let w := set_value "new-skill" (lit "Rust") two_skills in
  state (removeItem "skills-list" 2 (add Skills w)) = state two_skills.
Proof.
  intros w. exact (proj1 (add_then_remove_last Skills w eq_refl)).
Defined.

(** X4.  Editing the last index right after an add that stored an item
    gives back the five collections as they were before the add, and the
    controls show the item as stored: the scalars trimmed, the bullets
    without their blank lines. *)
Theorem add_then_edit_last (c : Collection) (w : World) :
  accepts c w = true ->
  let last_index := Z.of_nat (length (items c (state w))) in
  exists w1,
    editItem (listId_of c) last_index (add c w) = Returned w1
    /\ state w1 = state w
    /\ value w1 <$> inputs c = texts (entered c w).
Proof.
  intros H last_index.
  destruct (add_accepted c w H) as (Happ & _).
  assert (at_index (items c (state (add c w))) last_index
          = Some (entered c w)) as Hat.
  { subst last_index. rewrite at_index_nat, Happ.
    by rewrite list_lookup_middle. }
  destruct (editItem_found c _ _ _ Hat) as (w1 & Hedit & Hst & Htexts & _).
  exists w1. rewrite Hst. split; [done|]. split; [|done].
  by apply add_then_remove_state.
Qed.

Lemma add_then_edit_last_witness :
  let w := set_value "new-skill" (lit "  Rust ") two_skills in
  exists w1,
    editItem "skills-list" 2 (add Skills w) = Returned w1
    /\ state w1 = state two_skills
    /\ value w1 "new-skill" = lit "Rust".
Proof.
  intros w.
  destruct (add_then_edit_last Skills w eq_refl) as (w1 & H1 & H2 & H3).
  exists w1. split; [exact H1|]. split; [exact H2|].
  by injection H3.
Defined.

(** ** [editItem] and [removeItem] at any list and any index *)

Lemma editItem_missing_alerts (c : Collection) (k : Z) (w : World) :
  at_index (items c (state w)) k = None ->
  alerts (world_of (editItem (listId_of c) k w)) = alerts w.
Proof.
  intros Hi. destruct c; simpl in Hi; rewrite at_index_fmap in Hi;
    apply fmap_None in Hi; run_edit;
    unfold edit_skill, edit_experience, edit_project, edit_education,
      edit_achievement; rewrite ?Hi; done.
Qed.

(** X5.  Whatever the list id and the index, [editItem] either returns
    with the five collections exactly as [removeItem] would leave them,
    without an alert, or throws with the whole page untouched: it never
    throws after a write. *)
Theorem edit_removes_or_throws_clean (listId : string) (k : Z) (w : World) :
  match editItem listId k w with
  | Returned w1 =>
      state w1 = state (removeItem listId k w) /\ alerts w1 = alerts w
  | Threw _ w1 => w1 = w
  end.
Proof.
  destruct (listId_cases listId) as [[c ->]|Hno].
  - destruct (at_index (items c (state w)) k) as [i|] eqn:Hi.
    + by destruct (editItem_found c k w i Hi) as (w1 & -> & ? & _ & ?).
    + pose proof (editItem_missing c k w Hi) as H.
      pose proof (editItem_missing_alerts c k w Hi) as Hal.
      destruct (editItem (listId_of c) k w) as [w1|e w1].
      * by destruct H as (_ & ? & _).
      * by destruct H as (_ & _ & ? & _).
  - destruct (unknown_listId listId k w Hno) as [-> ->]. done.
Qed.

(** X6.  [editItem] throws exactly when the list id names the experience,
    project or education list and the index holds no item; and whenever it
    throws, what it throws is a [TypeError] and the page is as it was. *)
Theorem edit_throws_exactly (listId : string) (k : Z) (w : World) :
  ((exists e w1, editItem listId k w = Threw e w1)
   <-> (exists c, (c = Experience \/ c = Projects \/ c = Education)
                  /\ listId = listId_of c
                  /\ at_index (items c (state w)) k = None))
  /\ (forall e w1, editItem listId k w = Threw e w1 ->
                   w1 = w /\ exists text, e = TypeError text).
Proof.
  assert (forall e w1, editItem listId k w = Threw e w1 ->
            w1 = w /\ (exists text, e = TypeError text)
            /\ exists c, (c = Experience \/ c = Projects \/ c = Education)
                         /\ listId = listId_of c
                         /\ at_index (items c (state w)) k = None) as Hthrown.
  { intros e w1 Hthrow.
    destruct (listId_cases listId) as [[c ->]|Hno].
    - destruct (at_index (items c (state w)) k) as [i|] eqn:Hi.
      + destruct (editItem_found c k w i Hi) as (w2 & Hret & _). congruence.
      + pose proof (editItem_missing c k w Hi) as H.
        rewrite Hthrow in H. destruct H as (? & ? & -> & text & ->).
        split; [done|]. split; [by exists text|].
        exists c. repeat split; try done. destruct c; tauto.
    - destruct (unknown_listId listId k w Hno) as [_ Hret]. congruence. }
  split; [split|].
  - intros (e & w1 & Hthrow). by destruct (Hthrown e w1 Hthrow) as (_ & _ & ?).
  - intros (c & Hc & -> & Hi).
    pose proof (editItem_missing c k w Hi) as H.
    destruct (editItem (listId_of c) k w) as [w1|e w1]; [|eauto].
    destruct H as (Hsa & _). exfalso.
    destruct Hc as [->|[->| ->]], Hsa as [Hsa|Hsa]; discriminate Hsa.
  - intros e w1 Hthrow. by destruct (Hthrown e w1 Hthrow) as (? & ? & _).
Qed.

(** The three lists throw at an empty slot, past the end or below zero. *)
Example edit_throws_examples :
  editItem "experience-list" 0 two_skills
  = Threw (undefined_property "title") two_skills
  /\ editItem "project-list" (-1) with_engineer
     = Threw (undefined_property "name") with_engineer
  /\ editItem "edu-list" 3 with_engineer
     = Threw (undefined_property "degree") with_engineer.
Proof.
  split; [vm_compute; reflexivity|]. split; vm_compute; reflexivity.
Qed.

(** X7.  On the skill and achievement lists an index that holds no item
    does not stop [editItem]: it returns, and the control of the list shows
    the text "undefined". *)
Theorem edit_empty_slot_writes_undefined (c : Collection) (k : Z)
  (w : World) :
  c = Skills \/ c = Achievements ->
  at_index (items c (state w)) k = None ->
  exists w1, editItem (listId_of c) k w = Returned w1
    /\ value w1 <$> inputs c = [lit "undefined"]
    /\ state w1 = state (removeItem (listId_of c) k w).
Proof.
  intros Hc Hi. pose proof (editItem_missing c k w Hi) as H.
  destruct (editItem (listId_of c) k w) as [w1|e w1].
  - destruct H as (_ & ? & ?). eauto.
  - destruct H as (? & ? & _). destruct Hc; done.
Qed.

Lemma edit_empty_slot_writes_undefined_witness :
  exists w1, editItem "skills-list" 5 two_skills = Returned w1
    /\ value w1 "new-skill" = lit "undefined"
    /\ skills (state w1) = [lit "Python"; lit "Go"].
Proof.
  destruct (edit_empty_slot_writes_undefined Skills 5 two_skills
              (or_introl eq_refl) eq_refl) as (w1 & H1 & H2 & H3).
  exists w1. split; [exact H1|]. split; [by injection H2|].
  rewrite H3. reflexivity.
Defined.

(** X8.  Below zero [removeItem] counts from the end: index [-j] drops the
    item [j] places from the end, and an index before the front drops the
    first item. *)
Theorem remove_counts_from_the_end (c : Collection) (w : World) (k : Z) :
  k < 0 ->
  let before := items c (state w) in
  let n := Z.to_nat (Z.max (Z.of_nat (length before) + k) 0) in
  items c (state (removeItem (listId_of c) k w))
  = take n before ++ drop (S n) before.
Proof.
  intros Hk before n. rewrite removeItem_items. case_decide; [|done].
  subst n before. destruct (items c (state w)) as [|x l].
  - unfold splice. by rewrite !take_nil, !drop_nil.
  - rewrite splice_negative by done.
    rewrite splice_in_range; [done|]. simpl length. lia.
Qed.

Lemma remove_counts_from_the_end_witness :
  skills (state (removeItem "skills-list" (-2) two_skills)) = [lit "Go"]
  /\ skills (state (removeItem "skills-list" (-9) two_skills)) = [lit "Go"].
Proof.
  assert (-2 < 0) as H2 by reflexivity.
  assert (-9 < 0) as H9 by reflexivity.
  pose proof (remove_counts_from_the_end Skills two_skills (-2) H2) as A.
  pose proof (remove_counts_from_the_end Skills two_skills (-9) H9) as B.
  apply (f_equal (omap (fun i => match i with SkillItem s => Some s
                                        | _ => None end))) in A, B.
  vm_compute in A, B. split; [exact A | exact B].
Defined.

(** X9.  A list id other than the five the page uses is ignored by both
    handlers: nothing on the page changes and nothing is thrown. *)
Theorem unknown_list_is_ignored (listId : string) (k : Z) (w : World) :
  listId ∉ listId_of <$> collections ->
  removeItem listId k w = w /\ editItem listId k w = Returned w.
Proof.
  intros H. apply unknown_listId. intros c ->. apply H.
  apply list_elem_of_fmap_2. destruct c; cbn; repeat constructor.
Qed.

Lemma unknown_list_is_ignored_witness :
  removeItem "skill-list" 0 two_skills = two_skills
  /\ editItem "skill-list" 0 two_skills = Returned two_skills.
Proof.
  apply unknown_list_is_ignored. vm_compute.
  intros H. repeat (inversion H as [|? ? ? H']; clear H; rename H' into H).
Defined.

(** * Further properties of the request *)

Local Ltac open_payload :=
  unfold submitted, generateDocument_submit, build_payload, fields_of;
  simpl; rewrite ?value_with_button.

(** X10.  A document type other than the five the script knows takes no
    branch: the payload still goes out, under that type, with the four
    base identity fields as its only fields. *)
Theorem unknown_doc_type_sends_base_fields (w : World) :
  value w "doc-type" ∉ doc_type_name <$> [Resume; Sop; Letter; Contract; Report] ->
  dom (fields_of (submitted w)) = base_keys
  /\ submitted w !! "doc_type" = Some (PText (value w "doc-type")).
Proof.
  intros H. split; [|done].
  assert (forall t, value w "doc-type" <> doc_type_name t) as Hne.
  { intros t Ht. apply H. rewrite Ht. apply list_elem_of_fmap_2.
    destruct t; repeat constructor. }
  pose proof (Hne Resume). pose proof (Hne Sop). pose proof (Hne Letter).
  pose proof (Hne Contract). pose proof (Hne Report).
  open_payload. repeat (case_decide; [done|]).
  unfold assign_all, base_keys. simpl.
  rewrite lookup_insert_ne, lookup_insert_eq by done.
  rewrite !dom_insert_L, dom_empty_L. set_solver.
Qed.

Lemma unknown_doc_type_sends_base_fields_witness :
  dom (fields_of (submitted (set_value "doc-type" (lit "memo") fresh)))
  = base_keys.
Proof.
  refine (proj1 (unknown_doc_type_sends_base_fields _ _)).
  apply (bool_decide_unpack _). vm_compute. exact I.
Defined.

(** X11.  Whatever the document type, known or not, the four base
    identity fields hold the texts of the four identity controls: no
    branch overwrites them. *)
Theorem base_fields_always_sent (w : World) :
  let f := fields_of (submitted w) in
  f !! "name" = Some (FText (value w "field-name"))
  /\ f !! "email" = Some (FText (value w "field-email"))
  /\ f !! "phone" = Some (FText (value w "field-phone"))
  /\ f !! "location" = Some (FText (value w "field-location")).
Proof.
  open_payload. repeat case_decide; done.
Qed.

(** X12.  A resume payload carries the five collections as they are at
    the click, the experience under [experience_list]; the payload of
    every other known type carries texts only, so no collection leaks into
    it. *)
Theorem collections_travel_with_resume_only (t : DocType) (w : World) :
  value w "doc-type" = doc_type_name t ->
  let f := fields_of (submitted w) in
  match t with
  | Resume =>
      f !! "skills" = Some (FTexts (skills (state w)))
      /\ f !! "experience_list" = Some (FExperience (experience (state w)))
      /\ f !! "education" = Some (FEducation (education (state w)))
      /\ f !! "projects" = Some (FProjects (projects (state w)))
      /\ f !! "achievements" = Some (FTexts (achievements (state w)))
  | _ => map_Forall (fun _ v => exists s, v = FText s) f
  end.
Proof.
  intros H.
  destruct t; simpl in H; open_payload; rewrite H; simpl;
    repeat (case_decide; [try discriminate|]; try done);
    unfold assign_all; simpl;
    repeat (apply map_Forall_insert_2; [by eexists|]);
    apply map_Forall_empty.
Qed.

Lemma collections_travel_with_resume_only_witness :
  fields_of (submitted (set_value "doc-type" (lit "resume") with_engineer))
    !! "skills"
  = Some (FTexts [lit "Python"; lit "Go"]).
Proof.
  exact (proj1 (collections_travel_with_resume_only Resume
                  (set_value "doc-type" (lit "resume") with_engineer)
                  eq_refl)).
Defined.

Lemma requests_editItem (listId : string) (k : Z) (w : World) :
  requests (world_of (editItem listId k w)) = requests w.
Proof.
  destruct (listId_cases listId) as [[c ->]|Hno].
  - destruct c; run_edit;
      unfold edit_skill, edit_experience, edit_project, edit_education,
        edit_achievement;
      match goal with
      | |- context [match ?o with Some _ => _ | None => _ end] =>
          by destruct o
      | _ => done
      end.
  - by rewrite (proj2 (unknown_listId listId k w Hno)).
Qed.

Lemma requests_step (w : World) (ev : Event) :
  requests (step w ev)
  = requests w ++ match ev with
                  | ClickGenerate _ _ => [submitted w]
                  | _ => []
                  end.
Proof.
  destruct ev as [id text|mode|c|listId k|listId k|r now]; cbn [step];
    rewrite ?app_nil_r; try done.
  - destruct c; cbn [add];
      unfold addSkill, addExp, addProj, addEdu, addAch;
      match goal with |- context [if ?b then _ else _] => by destruct b end.
  - apply requests_editItem.
  - by destruct r as [?|[?|?]|?].
Qed.

(** X13.  Over any session, the requests handed to [fetch] are exactly one
    per click on the generate button, whatever each settles to, and each
    body is the payload built from the page as it is at that click: a
    failed request is not retried and no other handler sends anything. *)
Theorem one_request_per_click (evs : list Event) (w : World) :
  requests (run w evs) = requests w ++ bodies w evs
  /\ length (bodies w evs)
     = length (filter (fun ev => is_generate ev = true) evs).
Proof.
  split.
  - revert w. induction evs as [|ev evs IH]; intros w; simpl.
    + by rewrite app_nil_r.
    + change (foldl step (step w ev) evs) with (run (step w ev) evs).
      by rewrite IH, requests_step, <- app_assoc.
  - revert w. induction evs as [|ev evs IH]; intros w; [done|].
    simpl bodies. rewrite length_app, IH.
    destruct ev; first
      [ rewrite filter_cons_True by done; done
      | rewrite filter_cons_False by done; done ].
Qed.

(** X14.  What a request ends in, for the replies [FetchResult] covers.
    On success the PDF link gets the object URL and the name made of the
    document type at the click, the time and ".pdf", the DOCX link is
    hidden, the result area is shown and no alert appears.  When [fetch]
    rejects, when the body of a failure response does not parse, and when
    it parses to an object whose detail is a text or absent, exactly one
    alert appears, "Error: " followed by the message of the rejection, the
    message of the parse error, or the detail (the fallback if it is empty
    or absent); the download area is left as it was. *)
Theorem request_outcome (r : FetchResult) (now : N) (w : World) :
  let w' := generateDocument r now w in
  match r with
  | Ok url =>
      pdf_href w' = url
      /\ pdf_download w'
         = value w "doc-type" ++ lit "_" ++ decimal now ++ lit ".pdf"
      /\ docx_display w' = lit "none"
      /\ result_display w' = lit "block"
      /\ alerts w' = alerts w
  | _ =>
      alerts w'
      = alerts w
        ++ [lit "Error: "
            ++ match r with
               | Rejected text | NotOk (NotJson text) => text
               | NotOk (Json detail) => detail_or_default detail
               | Ok _ => []
               end]
      /\ pdf_href w' = pdf_href w
      /\ pdf_download w' = pdf_download w
      /\ docx_display w' = docx_display w
      /\ result_display w' = result_display w
  end.
Proof. by destruct r as [?|[?|?]|?]. Qed.

(** X15.  The label restored is the one the button had when the call
    started.  When a second call starts while the first is in flight, the
    call that settles last decides: if it is the second one the button ends
    up enabled with the busy label, if it is the first one the button gets
    its original label back. *)
Theorem overlapping_calls (r1 r2 : FetchResult) (n1 n2 : N) (w : World) :
  let '(p1, w1) := generateDocument_submit w in
  let '(p2, w2) := generateDocument_submit w1 in
  let first_then_second :=
    generateDocument_settle p2 r2 n2 (generateDocument_settle p1 r1 n1 w2) in
  let second_then_first :=
    generateDocument_settle p1 r1 n1 (generateDocument_settle p2 r2 n2 w2) in
  btn_innerHTML first_then_second = spinner
  /\ btn_disabled first_then_second = false
  /\ btn_innerHTML second_then_first = btn_innerHTML w
  /\ btn_disabled second_then_first = false
  /\ state first_then_second = state w
  /\ state second_then_first = state w.
Proof. by destruct r1 as [?|[?|?]|?], r2 as [?|[?|?]|?]. Qed.

(** ** Alerts over a session *)





(** Typing, a rejected skill add, an edit, a remove and a rejected
    experience add: one alert, from the last one. *)
Example alerts_example :
  alerts (run two_skills
            [Typed "new-skill" (lit "  "); ClickAdd Skills;
             ClickEdit "skills-list" 0; ClickRemove "skills-list" 0;
             ClickAdd Experience])
  = [lit "Job Title and Company are required."].
Proof. vm_compute. reflexivity. Qed.

(** * The view *)

(** The page layer only adds drawing: its collections, controls and
    requests are those of the store under the same events. *)
Lemma view_world_step (p : View.Page) (ev : Event) :
  View.world (View.step p ev) = step (View.world p) ev.
Proof.
  destruct ev as [id text|mode|c|listId k|listId k|r now]; simpl; try done.
  - destruct c; simpl;
      unfold View.addSkill, View.addExp, View.addProj, View.addEdu,
        View.addAch;
      match goal with |- context [if ?b then _ else _] => by destruct b end.
  - unfold View.editItem.
    by destruct (editItem listId k (View.world p)).
Qed.

Lemma view_world_run (evs : list Event) (p : View.Page) :
  View.world (View.run p evs) = run (View.world p) evs.
Proof.
  revert p. induction evs as [|ev evs IH]; intros p; [done|].
  simpl. by rewrite IH, view_world_step.
Qed.

Lemma refreshLists_in_sync (p : View.Page) : View.in_sync (View.refreshLists p).
Proof.
  intros c. unfold View.refreshLists, View.renderList. simpl.
  destruct c; simpl;
    repeat (rewrite lookup_insert_eq || rewrite lookup_insert_ne by done);
    done.
Qed.

Lemma in_sync_unchanged (p p' : View.Page) :
  View.in_sync p ->
  View.lists p' = View.lists p ->
  state (View.world p') = state (View.world p) ->
  View.in_sync p'.
Proof. intros H Hl Hs c. by rewrite Hl, Hs. Qed.

Lemma editItem_threw (listId : string) (k : Z) (w w1 : World) (e : exn) :
  editItem listId k w = Threw e w1 -> w1 = w.
Proof.
  intros Hthrow. destruct (listId_cases listId) as [[c ->]|Hno].
  - destruct (at_index (items c (state w)) k) as [i|] eqn:Hi.
    + destruct (editItem_found c k w i Hi) as (w2 & Hret & _). congruence.
    + pose proof (editItem_missing c k w Hi) as H. rewrite Hthrow in H.
      by destruct H as (_ & _ & ? & _).
  - destruct (unknown_listId listId k w Hno) as [_ Hret]. congruence.
Qed.

Lemma in_sync_step (p : View.Page) (ev : Event) :
  View.in_sync p -> View.in_sync (View.step p ev).
Proof.
  intros H. destruct ev as [id text|mode|c|listId k|listId k|r now]; simpl.
  - by apply (in_sync_unchanged p).
  - by apply (in_sync_unchanged p).
  - destruct (accepts c (View.world p)) eqn:Hacc.
    + unfold accepts in Hacc.
      destruct c; simpl in Hacc |- *; rewrite ?andb_true_r in Hacc;
        unfold View.addSkill, View.addExp, View.addProj, View.addEdu,
          View.addAch;
        rewrite Hacc; apply refreshLists_in_sync.
    + pose proof (add_rejected c _ Hacc) as Hrej. unfold accepts in Hacc.
      destruct c; simpl in Hacc, Hrej |- *; rewrite ?andb_true_r in Hacc;
        unfold View.addSkill, View.addExp, View.addProj, View.addEdu,
          View.addAch;
        rewrite Hacc, Hrej; by apply (in_sync_unchanged p).
  - unfold View.editItem.
    destruct (editItem listId k (View.world p)) as [w1|e w1] eqn:He.
    + apply refreshLists_in_sync.
    + apply editItem_threw in He as ->. by apply (in_sync_unchanged p).
  - apply refreshLists_in_sync.
  - apply (in_sync_unchanged p); try done.
    by destruct r as [?|[?|?]|?].
Qed.

(** X16.  On a page whose list containers show the collections behind
    them, they still do after any sequence of events: every handler that
    changes a collection reaches [refreshLists], which redraws all five
    lists, and the handlers that skip it (a rejected add, an edit that
    throws) change no collection.  The collections themselves are those
    the store holds after the same events. *)
Theorem lists_stay_in_sync (evs : list Event) (p : View.Page) :
  View.in_sync p ->
  View.in_sync (View.run p evs)
  /\ View.world (View.run p evs) = run (View.world p) evs.
Proof.
  intros H. split; [|apply view_world_run].
  revert p H. induction evs as [|ev evs IH]; intros p H; [done|].
  apply IH, in_sync_step, H.
Qed.

Lemma lists_stay_in_sync_witness :
  let p := View.run View.fresh
             [Typed "new-skill" (lit "Go"); ClickAdd Skills;
              Typed "new-skill" (lit "C"); ClickAdd Skills;
              ClickRemove "skills-list" 0] in
  View.lists p !! "skills-list"
  = Some (View.markup "skills-list" [lit "C"] View.render_text).
Proof.
  intros p.
  assert (View.in_sync View.fresh) as H by (intros []; reflexivity).
  destruct (lists_stay_in_sync
              [Typed "new-skill" (lit "Go"); ClickAdd Skills;
               Typed "new-skill" (lit "C"); ClickAdd Skills;
               ClickRemove "skills-list" 0] View.fresh H) as [Hs _].
  exact (Hs Skills).
Defined.

(** ** Input sections and the mode switch *)

Lemma NoDup_sections : NoDup View.sections.
Proof.
  apply (bool_decide_unpack _). vm_compute. exact I.
Qed.

Lemma lookup_hide_all (ids : list jsstr) (v : jsstr) (d : gmap jsstr jsstr)
  (id : jsstr) :
  foldl (fun d id => View.show_if_present id v d) d ids !! id
  = (fun x => if decide (id ∈ ids) then v else x) <$> d !! id.
Proof.
  revert d. induction ids as [|a ids IH]; intros d.
  - cbn [foldl]. destruct (d !! id); [|done]. cbn.
    by rewrite decide_False by apply not_elem_of_nil.
  - cbn [foldl]. rewrite IH. unfold View.show_if_present.
    rewrite lookup_alter. destruct (decide (a = id)) as [->|Hne].
    + destruct (d !! id); [|done]. cbn.
      destruct (decide (id ∈ ids)); by rewrite decide_True by constructor.
    + destruct (d !! id); [|done]. cbn. f_equal.
      destruct (decide (id ∈ ids)) as [Hin|Hnot].
      * by rewrite decide_True by (by constructor).
      * rewrite decide_False; [done|].
        rewrite elem_of_cons. intuition congruence.
Qed.

(** The listener hides the five sections that exist and then shows the
    element named after the document type, if there is one; every other
    element keeps its display. *)
Lemma display_docTypeChanged (p : View.Page) (id : jsstr) :
  View.display (View.docTypeChanged p) !! id
  = (fun d =>
       if decide (id = lit "inputs-" ++ value (View.world p) "doc-type")
       then lit "block"
       else if decide (id ∈ View.sections) then lit "none" else d)
    <$> View.display p !! id.
Proof.
  unfold View.docTypeChanged.
  cbn [View.display View.with_display].
  unfold View.show_if_present at 1.
  destruct (decide (lit "inputs-" ++ value (View.world p) "doc-type" = id))
    as [<-|Hne].
  - rewrite lookup_alter_eq, lookup_hide_all.
    destruct (View.display p !! _) as [d|]; [|done].
    cbn [fmap option_fmap option_map]. by rewrite decide_True.
  - rewrite lookup_alter_ne, lookup_hide_all by done.
    destruct (View.display p !! id) as [d|]; [|done].
    cbn [fmap option_fmap option_map].
    destruct (decide (id = lit "inputs-" ++ value (View.world p) "doc-type"))
      as [->|_]; [by exfalso; apply Hne|done].
Qed.

(** X17.  After the document-type listener has run, an input section is
    shown exactly when it exists and is the one named after the selected
    type; so at most one of the five sections is shown, and none when the
    type is not one of the five. *)
Theorem one_section_visible (p : View.Page) :
  let p' := View.docTypeChanged p in
  let activeId := lit "inputs-" ++ value (View.world p) "doc-type" in
  (forall id, id ∈ View.visible_sections p'
              <-> id = activeId /\ id ∈ View.sections
                  /\ is_Some (View.display p !! id))
  /\ (length (View.visible_sections p') <= 1)%nat.
Proof.
  intros p' activeId.
  assert (forall id, id ∈ View.visible_sections p'
                     <-> id = activeId /\ id ∈ View.sections
                         /\ is_Some (View.display p !! id)) as Hvis.
  { intros id. unfold View.visible_sections.
    rewrite list_elem_of_filter. subst p'. rewrite display_docTypeChanged.
    fold activeId. split.
    - intros [Hd Hin]. destruct (View.display p !! id) as [d|]; [|done].
      simpl in Hd. repeat case_decide; simplify_eq; eauto.
    - intros (-> & Hin & [d ->]). simpl. by rewrite decide_True. }
  split; [exact Hvis|].
  assert (NoDup (View.visible_sections p')) as Hnd
    by apply NoDup_filter, NoDup_sections.
  destruct (View.visible_sections p') as [|a [|b l]]; simpl; try lia.
  assert (a = activeId) as -> by (apply Hvis; repeat constructor).
  assert (b = activeId) as -> by (apply Hvis; repeat constructor).
  apply NoDup_cons in Hnd as [Hnot _]. exfalso. apply Hnot. constructor.
Qed.

(** With all sections on the page, each known type shows its own. *)
Example letter_section_visible :
  View.visible_sections
    (View.run View.fresh [Typed "doc-type" (lit "letter"); ClickMode Guided])
  = [lit "inputs-letter"].
Proof. reflexivity. Qed.

Lemma container_not_section : lit "ai-context-container" ∉ View.sections.
Proof. apply (bool_decide_unpack _). vm_compute. exact I. Qed.

(** The AI-context container after [switchMode]: the listener that runs
    at the end leaves it alone. *)
Lemma container_after_switchMode (mode : Mode) (p : View.Page) :
  View.display (View.switchMode mode p) !! lit "ai-context-container"
  = (fun _ => match mode with
              | Guided => lit "block"
              | Manual => lit "none"
              end)
    <$> View.display p !! lit "ai-context-container".
Proof.
  unfold View.switchMode. cbv zeta. rewrite display_docTypeChanged.
  cbn [View.display View.world View.with_world].
  unfold View.show_if_present. rewrite lookup_alter_eq.
  destruct (View.display p !! lit "ai-context-container") as [d|]; [|done].
  cbn [fmap option_fmap option_map].
  destruct (decide (lit "ai-context-container" = _)) as [E|_];
    [vm_compute in E; discriminate E|].
  destruct (decide (lit "ai-context-container" ∈ View.sections)) as [E|_];
    [by apply container_not_section in E|done].
Qed.

(** X18.  [switchMode] shows the AI-context container exactly when the
    text of the AI-context control will be sent: after a switch to the
    guided mode the container is shown and the payload carries the text,
    after a switch to the manual mode it is hidden and the payload carries
    [null].  The switch hides the result area and changes no collection,
    no control and no rendered list. *)
Theorem context_shown_iff_sent (mode : Mode) (p : View.Page) :
  is_Some (View.display p !! lit "ai-context-container") ->
  let p' := View.switchMode mode p in
  let w' := View.world p' in
  match mode with
  | Guided =>
      View.display p' !! lit "ai-context-container" = Some (lit "block")
      /\ submitted w' !! "ai_context"
         = Some (PText (value (View.world p) "ai-context"))
  | Manual =>
      View.display p' !! lit "ai-context-container" = Some (lit "none")
      /\ submitted w' !! "ai_context" = Some PNull
  end
  /\ result_display w' = lit "none"
  /\ state w' = state (View.world p)
  /\ values w' = values (View.world p)
  /\ View.lists p' = View.lists p.
Proof.
  intros [d Hd] p' w'. split; [|done].
  subst w' p'. rewrite container_after_switchMode, Hd.
  by destruct mode.
Qed.

Lemma context_shown_iff_sent_witness :
  let p := View.switchMode Guided
             (View.run View.fresh [Typed "ai-context" (lit "notes")]) in
  View.display p !! lit "ai-context-container" = Some (lit "block")
  /\ submitted (View.world p) !! "ai_context" = Some (PText (lit "notes")).
Proof.
  intros p.
  assert (is_Some (View.display
                     (View.run View.fresh [Typed "ai-context" (lit "notes")])
                   !! lit "ai-context-container")) as H
    by (eexists; reflexivity).
  exact (proj1 (context_shown_iff_sent Guided _ H)).
Defined.
